(** * Restaurant Crawl Planner

    A shallow embedding of the four agent tools and the [chat] function of
    [agent.py], and of [render_chat_html] of [app.py], followed by the
    properties of these functions.

    Conventions of the embedding.
    - A Python [str] is a [string]; one [ascii] stands for one character of
      the Python string, and [lower] acts on the letters [A]..[Z].
    - A Python [int] is a [Z]; a Python [float] is a binary64 value of
      [SpecFloat], with the operations of IEEE 754 (round to nearest, ties
      to even).
    - A Python computation that may raise is a [result]: [Ok v] when it
      returns [v], [Raise msg] when it raises an exception whose [str] is
      [msg].  [try ... except Exception] is [try_except].
    - Calls into LangChain, Tavily and the clock are arguments of the
      functions that make them. *)

From Stdlib Require Import ZArith List String Ascii Bool Lia DecimalString.
From Stdlib Require Import Floats.SpecFloat.
From Equations Require Import Equations.
Import ListNotations.

Open Scope string_scope.
Open Scope Z_scope.

(** ** Python values and primitives *)

Module Py.

(** Outcome of a Python computation. *)
Inductive result (A : Type) : Type :=
| Ok (a : A)
| Raise (msg : string).

Arguments Ok {A} a.
Arguments Raise {A} msg.

Definition bind {A B : Type} (c : result A) (k : A -> result B) : result B :=
  match c with
  | Ok a => k a
  | Raise msg => Raise msg
  end.

(** [try: body / except Exception as e: handler(str(e))]. *)
Definition try_except {A : Type} (body : result A) (handler : string -> result A)
  : result A :=
  match body with
  | Ok a => Ok a
  | Raise msg => handler msg
  end.

(** The line feed, written [\n] in the source. *)
Definition LF : string := String "010"%char "".

(** [str(z)] for an int. *)
Definition str (z : Z) : string := NilZero.string_of_int (Z.to_int z).

(** [format(z, "02d")]: sign-aware zero padding to width two. *)
Definition format_02d (z : Z) : string :=
  let digits := str (Z.abs z) in
  if z <? 0 then "-" ++ digits
  else if (String.length digits <? 2)%nat then "0" ++ digits
  else digits.

(** [c.lower()] on one character. *)
Definition lower_char (c : ascii) : ascii :=
  let n := nat_of_ascii c in
  if ((65 <=? n) && (n <=? 90))%nat then ascii_of_nat (n + 32) else c.

(** [s.lower()]. *)
Fixpoint lower (s : string) : string :=
  match s with
  | EmptyString => EmptyString
  | String c s' => String (lower_char c) (lower s')
  end.

(** [sub in s]. *)
Fixpoint contains (sub s : string) : bool :=
  if String.prefix sub s then true
  else match s with
       | EmptyString => false
       | String _ s' => contains sub s'
       end.

(** [s[:n]]. *)
Fixpoint take (n : nat) (s : string) : string :=
  match n, s with
  | S n', String c s' => String c (take n' s')
  | _, _ => EmptyString
  end.

(** [s] without its first [String.length p] characters when [p] is a prefix
    of [s]. *)
Fixpoint strip_prefix (p s : string) : option string :=
  match p, s with
  | EmptyString, _ => Some s
  | String a p', String b s' =>
      if Ascii.eqb a b then strip_prefix p' s' else None
  | String _ _, EmptyString => None
  end.

(** A value together with the equation that names it. *)
Definition inspect {A : Type} (a : A) : {b : A | a = b} := exist _ a eq_refl.

(** [s.replace(old, new)] for a non-empty [old], whose first character is
    [c] and whose other characters are [old']: the occurrences are taken
    from left to right and do not overlap. *)
Equations? replace_nonempty (c : ascii) (old' new s : string) : string
  by wf (String.length s) lt :=
  replace_nonempty c old' new EmptyString := EmptyString;
  replace_nonempty c old' new (String b s')
    with inspect (strip_prefix (String c old') (String b s')) := {
    | exist _ (Some rest) Heq => new ++ replace_nonempty c old' new rest
    | exist _ None _ => String b (replace_nonempty c old' new s') }.
Proof.
  clear replace_nonempty.
  assert (L : forall p t r, strip_prefix p t = Some r ->
                            (String.length r + String.length p = String.length t)%nat).
  { induction p as [|a p IH]; intros [|d t] r; simpl;
      try discriminate; try (intros [= <-]; simpl; lia).
    destruct (Ascii.eqb a d); [|discriminate].
    intros H. apply IH in H. lia. }
  pose proof (L (String c old') (String b s') rest Heq) as H.
  simpl in H |- *. lia.
Qed.

(** [s.replace(old, new)]; for the empty [old], [new] is put before every
    character and at the end. *)
Definition replace (old new s : string) : string :=
  match old with
  | EmptyString =>
      fold_right (fun ch acc => new ++ String ch acc) new (list_ascii_of_string s)
  | String c old' => replace_nonempty c old' new s
  end.

(** [sep.join(parts)]. *)
Definition join (sep : string) (parts : list string) : string :=
  String.concat sep parts.

(** [range(a, b)]. *)
Definition range (a b : Z) : list Z :=
  map (fun k => a + Z.of_nat k) (seq 0 (Z.to_nat (b - a))).

(** [for x in xs: st = body(st, x)], stopping at the first exception. *)
Fixpoint for_each {S X : Type} (body : S -> X -> result S) (xs : list X) (st : S)
  : result S :=
  match xs with
  | [] => Ok st
  | x :: xs' => bind (body st x) (for_each body xs')
  end.

(** [l[-k:]] for [k > 0]. *)
Definition last_n {A : Type} (k : nat) (l : list A) : list A :=
  skipn (List.length l - k) l.

(** *** Floats: IEEE 754 binary64 *)

Definition prec : Z := 53.
Definition emax : Z := 1024.

(** The integer [z] as an exact, not normalised, binary float. *)
Definition exact_of_int (z : Z) : spec_float :=
  match z with
  | Z0 => S754_zero false
  | Zpos p => S754_finite false p 0
  | Zneg p => S754_finite true p 0
  end.

(** [a / b] on ints: the quotient of the two integers, rounded once. *)
Definition int_truediv (a b : Z) : result spec_float :=
  if b =? 0 then Raise "division by zero"
  else match SFdiv prec emax (exact_of_int a) (exact_of_int b) with
       | S754_infinity _ => Raise "integer division result too large for a float"
       | q => Ok q
       end.

(** [float(z)]. *)
Definition float_of_int (z : Z) : result spec_float :=
  match binary_normalize prec emax z 0 false with
  | S754_infinity _ => Raise "int too large to convert to float"
  | x => Ok x
  end.

(** [x * z] for a float [x] and an int [z]. *)
Definition float_mul_int (x : spec_float) (z : Z) : result spec_float :=
  bind (float_of_int z) (fun y => Ok (SFmul prec emax x y)).

(** [int(x)]: truncation towards zero. *)
Definition int_of_float (x : spec_float) : result Z :=
  match x with
  | S754_zero _ => Ok 0
  | S754_finite s m e =>
      let a := match e with
               | Z0 => Zpos m
               | Zpos _ => Z.shiftl (Zpos m) e
               | Zneg k => Z.shiftr (Zpos m) (Zpos k)
               end in
      Ok (if s then - a else a)
  | S754_infinity _ => Raise "cannot convert float infinity to integer"
  | S754_nan => Raise "cannot convert float NaN to integer"
  end.

(** A shift record of the rounding that has lost no bit. *)
Definition lossless (mrs : shr_record) : Prop :=
  shr_r mrs = false /\ shr_s mrs = false.

(** A float that is zero, or finite and of absolute value at most
    [K * 2 ^ eb]. *)
Definition below (x : spec_float) (K eb : Z) : Prop :=
  match x with
  | S754_zero _ => True
  | S754_finite _ m e => e <= eb /\ Z.pos m <= K * 2 ^ (eb - e)
  | _ => False
  end.

End Py.

(** ** The agent tools and the chat function (agent.py) *)

Module Agent.
Import Py.

(** *** search_restaurants *)

(** One element of the list the search tool returns: a dict with string
    values, or something that is not a dict. *)
Inductive search_item : Type :=
| ItemDict (fields : list (string * string))
| ItemOther.

(** What the search tool returns: a list, or a value of another type (the
    tool answers with a text when its request fails) with its truth value. *)
Inductive search_results : Type :=
| ResList (items : list search_item)
| ResOther (truth : bool).

(** [if results:]. *)
Definition results_truthy (results : search_results) : bool :=
  match results with
  | ResList [] => false
  | ResList (_ :: _) => true
  | ResOther truth => truth
  end.

(** [d.get(key, default)]. *)
Fixpoint dict_get {V : Type} (d : list (string * V)) (key : string) (default : V) : V :=
  match d with
  | [] => default
  | (k, v) :: d' => if String.eqb k key then v else dict_get d' key default
  end.

(** [enumerate(xs, start)]. *)
Fixpoint enumerate {A : Type} (xs : list A) (start : Z) : list (Z * A) :=
  match xs with
  | [] => []
  | x :: xs' => (start, x) :: enumerate xs' (start + 1)
  end.

(** The body of the loop over [enumerate(results[:5], 1)]. *)
Definition format_result (formatted_results : string) (entry : Z * search_item)
  : string :=
  let '(i, result) := entry in
  match result with
  | ItemDict fields =>
      let title := dict_get fields "title" "Restaurant" in
      let content := dict_get fields "content" "" in
      let url := dict_get fields "url" "" in
      formatted_results ++ str i ++ ". " ++ title ++ LF
        ++ "   " ++ take 200 content ++ "..." ++ LF
        ++ "   Source: " ++ url ++ LF ++ LF
  | ItemOther => formatted_results
  end.

(** [search_restaurants]; [tavily query] is the outcome of building the
    search tool and invoking it on [query]. *)
Definition search_restaurants (tavily : string -> result search_results)
    (city cuisine budget : string) : result string :=
  try_except
    (let query := "best " ++ cuisine ++ " restaurants in " ++ city ++ " "
                    ++ budget ++ " budget popular food places" in
     bind (tavily query) (fun results =>
     if results_truthy results then
       let formatted_results :=
         "Restaurant search results for " ++ cuisine ++ " in " ++ city
           ++ " (" ++ budget ++ " budget):" ++ LF ++ LF in
       match results with
       | ResList items =>
           Ok (fold_left format_result (enumerate (firstn 5 items) 1)
                 formatted_results)
       | ResOther _ => Ok formatted_results
       end
     else
       Ok ("No specific results found, but " ++ city ++ " is known for great "
             ++ cuisine ++ " options!")))
    (fun e => Ok ("Error searching restaurants: " ++ e
                    ++ ". Using general knowledge for " ++ city ++ ".")).

(** *** get_cuisine_recommendations *)

(** The dict [cuisine_data], in the order of its declaration, which is the
    order a [for key in cuisine_data] visits it. *)
Definition cuisine_data : list (string * string) :=
  [ ("street food",
     "Popular dishes: Pani Puri, Vada Pav, Pav Bhaji, Chaat, Momos, Rolls, Samosas. Best time: Evening (5 PM - 9 PM). Budget: ‚Çπ50-200 per person.");
    ("vegan",
     "Popular dishes: Buddha Bowls, Quinoa Salads, Veggie Wraps, Smoothie Bowls, Plant-based Burgers, Tofu Dishes. Best time: Lunch (12 PM - 2 PM) or Dinner (7 PM - 9 PM). Budget: ‚Çπ300-800 per person.");
    ("fine dining",
     "Multi-course meals, Chef's specials, Wine pairings, Signature dishes, Tasting menus. Best time: Dinner (8 PM - 10 PM). Budget: ‚Çπ2000-5000+ per person. Reservation recommended.");
    ("indian",
     "Popular dishes: Butter Chicken, Biryani, Tandoori items, Dal Makhani, Paneer dishes, Dosas, Thalis. Best time: Lunch (12 PM - 3 PM) or Dinner (7 PM - 10 PM). Budget varies by restaurant type.");
    ("italian",
     "Popular dishes: Pizza, Pasta (Carbonara, Alfredo), Risotto, Tiramisu, Gelato. Best time: Lunch (12 PM - 3 PM) or Dinner (7 PM - 10 PM). Budget: ‚Çπ500-1500 per person.");
    ("chinese",
     "Popular dishes: Dim Sum, Noodles, Fried Rice, Manchurian, Spring Rolls, Soups. Best time: Lunch (12 PM - 3 PM) or Dinner (7 PM - 10 PM). Budget: ‚Çπ300-1000 per person.");
    ("japanese",
     "Popular dishes: Sushi, Ramen, Tempura, Teriyaki, Bento Boxes. Best time: Lunch (12 PM - 2 PM) or Dinner (7 PM - 9 PM). Budget: ‚Çπ800-2000 per person.");
    ("thai",
     "Popular dishes: Pad Thai, Tom Yum Soup, Green Curry, Som Tam, Spring Rolls. Best time: Lunch or Dinner. Budget: ‚Çπ400-1200 per person.");
    ("mediterranean",
     "Popular dishes: Hummus, Falafel, Shawarma, Greek Salad, Kebabs. Best time: Lunch or Dinner. Budget: ‚Çπ400-1200 per person.") ].

(** The loop [for key in keys: if key in cuisine_lower: return ...]: the key
    at which it returns, if any. *)
Fixpoint first_key_in (keys : list string) (cuisine_lower : string) : option string :=
  match keys with
  | [] => None
  | key :: keys' =>
      if contains key cuisine_lower then Some key
      else first_key_in keys' cuisine_lower
  end.

Definition get_cuisine_recommendations (cuisine_type : string) : string :=
  let cuisine_lower := lower cuisine_type in
  match first_key_in (map fst cuisine_data) cuisine_lower with
  | Some key =>
      "Recommendations for " ++ cuisine_type ++ ":" ++ LF
        ++ dict_get cuisine_data key ""
  | None =>
      "General recommendations for " ++ cuisine_type
        ++ ": Explore local specialties, ask for chef's recommendations, and try signature dishes. Budget accordingly and check reviews online."
  end.

(** *** calculate_crawl_timing *)

(** The variables of the loop over the stops. *)
Record crawl_state : Type := {
  schedule : string;
  current_hour : Z;
  current_min : Z
}.

(** [start_time], [total_hours] and [activity], set by the test on "half". *)
Definition crawl_plan (duration : string) : string * Z * string :=
  if contains "half" (lower duration)
  then ("11:00 AM", 5, "Half-Day Food Crawl")
  else ("10:00 AM", 10, "Full-Day Food Crawl").

(** The hour at which the loop starts, set by the test on "full". *)
Definition initial_hour (duration : string) : Z :=
  if contains "full" (lower duration) then 10 else 11.

Definition am_pm_of (current_hour : Z) : string :=
  if current_hour <? 12 then "AM" else "PM".

Definition display_hour_of (current_hour : Z) : Z :=
  let display_hour :=
    if current_hour <=? 12 then current_hour else current_hour - 12 in
  if display_hour =? 0 then 12 else display_hour.

(** [while current_min >= 60: current_min -= 60; current_hour += 1]. *)
Equations? carry_minutes (current_hour current_min : Z) : Z * Z
  by wf (Z.to_nat current_min) lt :=
  carry_minutes current_hour current_min with Z_ge_dec current_min 60 := {
    | left _ => carry_minutes (current_hour + 1) (current_min - 60)
    | right _ => (current_hour, current_min) }.
Proof. lia. Qed.

(** [stop_duration = int(time_per_stop * 60)]. *)
Definition stop_duration_of (time_per_stop : spec_float) : result Z :=
  bind (float_mul_int time_per_stop 60) int_of_float.

(** The line the loop adds to the schedule for one stop. *)
Definition stop_line (i current_hour current_min stop_duration : Z) : string :=
  let am_pm := am_pm_of current_hour in
  let display_hour := display_hour_of current_hour in
  "Stop " ++ str i ++ ": " ++ str display_hour ++ ":" ++ format_02d current_min
    ++ " " ++ am_pm ++ " (Duration: " ++ str stop_duration ++ " mins)" ++ LF.

(** One turn of the loop [for i in range(1, num_stops + 1)].  The source
    also builds [time_str], which it never reads. *)
Definition crawl_step (time_per_stop : spec_float) (st : crawl_state) (i : Z)
  : result crawl_state :=
  bind (stop_duration_of time_per_stop) (fun stop_duration =>
  let schedule' :=
    schedule st ++ stop_line i (current_hour st) (current_min st) stop_duration in
  let '(hour', min') :=
    carry_minutes (current_hour st) (current_min st + stop_duration) in
  Ok {| schedule := schedule'; current_hour := hour'; current_min := min' |}).

Definition schedule_header (activity : string) (num_stops : Z) : string :=
  activity ++ " Schedule (" ++ str num_stops ++ " stops):" ++ LF ++ LF.

Definition calculate_crawl_timing (duration : string) (num_stops : Z)
  : result string :=
  try_except
    (let '(start_time, total_hours, activity) := crawl_plan duration in
     bind (int_truediv total_hours num_stops) (fun time_per_stop =>
     let st0 := {| schedule := schedule_header activity num_stops;
                   current_hour := initial_hour duration;
                   current_min := 0 |} in
     bind (for_each (crawl_step time_per_stop) (range 1 (num_stops + 1)) st0)
          (fun st => Ok (schedule st))))
    (fun e => Ok ("Error calculating timing: " ++ e)).

(** The stops of a schedule, for the statements on it: a stop is the
    counter [i], the running clock (hour, on 24 hours, and minute) at the
    moment its line is built, and its duration. *)
Record stop : Type := {
  stop_index : Z;
  stop_hour : Z;
  stop_minute : Z;
  stop_length : Z
}.

(** The line of the schedule for a stop. *)
Definition render_stop (s : stop) : string :=
  stop_line (stop_index s) (stop_hour s) (stop_minute s) (stop_length s).

(** The [len] stops met from the counter [i] and the clock [hour]:[minute],
    each of [d] minutes, the minutes above 59 being carried into the hour. *)
Fixpoint stops_from (i hour minute d : Z) (len : nat) : list stop :=
  match len with
  | O => []
  | S len' =>
      {| stop_index := i; stop_hour := hour; stop_minute := minute;
         stop_length := d |}
        :: stops_from (i + 1) (hour + (minute + d) / 60) ((minute + d) mod 60)
             d len'
  end.

(** *** chat *)

(** A Python value as [chat] inspects it: [None], a [str], or a value of
    another type, of which [chat] reads the truth value and the text
    [str()] gives. *)
Inductive pyval : Type :=
| VNone
| VStr (s : string)
| VOther (truth : bool) (shown : string).

(** [bool(v)]. *)
Definition truthy (v : pyval) : bool :=
  match v with
  | VNone => false
  | VStr s => negb (String.eqb s "")
  | VOther truth _ => truth
  end.

(** [isinstance(v, str)]. *)
Definition is_str (v : pyval) : bool :=
  match v with
  | VStr _ => true
  | _ => false
  end.

(** [str(v)]. *)
Definition str_of (v : pyval) : string :=
  match v with
  | VNone => "None"
  | VStr s => s
  | VOther _ shown => shown
  end.

(** [v != s] for a string literal [s]. *)
Definition differs_from (v : pyval) (s : string) : bool :=
  match v with
  | VStr t => negb (String.eqb t s)
  | _ => true
  end.

(** What [agent_executor.invoke] returns: [None], a dict, or another
    object, given by its attribute [output] (if it has one) and by the
    text [str()] gives for it. *)
Inductive response : Type :=
| RNone
| RDict (items : list (string * pyval))
| RObject (output : option pyval) (shown : string).

(** A message of the history handed to the executor. *)
Inductive message : Type :=
| HumanMessage (content : pyval)
| AIMessage (content : pyval).

(** An entry of the global [chat_history]: the tuple [(role, content)]. *)
Definition entry : Type := string * pyval.

(** The agent executor: [invoke] on the input and the formatted history. *)
Definition executor : Type := string -> list message -> result response.

(** The loop that builds [formatted_history].  [HumanMessage(content=...)]
    checks its content and raises when it is not a text, which sends [chat]
    to its outer [except]; the entries [chat] itself appends hold texts, and
    the statements on histories of any other origin take as hypothesis that
    their human entries hold texts. *)
Definition format_entry (formatted_history : list message) (msg : entry)
  : list message :=
  let '(role, content) := msg in
  if String.eqb role "human" then formatted_history ++ [HumanMessage content]
  else if String.eqb role "assistant" && truthy content then
    if is_str content then formatted_history ++ [AIMessage content]
    else formatted_history
  else formatted_history.

Definition format_history (chat_history : list entry) : list message :=
  fold_left format_entry chat_history [].

(** The block [try: response = agent_executor.invoke(...) ... except
    Exception as e: ...], which sets [output]. *)
Definition agent_output (invoked : result response) : pyval :=
  match invoked with
  | Ok response =>
      let output :=
        match response with
        | RNone => VStr "No response was generated. Please try again."
        | RDict items =>
            let output := dict_get items "output" (VStr "") in
            if negb (truthy output)
            then VStr "I didn't get a proper response. Could you rephrase your question?"
            else output
        | RObject (Some VNone) shown => VStr shown
        | RObject (Some attr) _ => VStr (str_of attr)
        | RObject None shown => VStr shown
        end in
      if negb (truthy output) || negb (is_str output)
      then VStr "I'm having trouble understanding. Could you rephrase your question?"
      else output
  | Raise e =>
      VStr ("I encountered an error: " ++ e
              ++ ". Could you please rephrase your question?")
  end.

(** [if output and output != 'No response generated': chat_history.append(...)]. *)
Definition update_history (chat_history : list entry) (user_input : string)
    (output : pyval) : list entry :=
  if truthy output && differs_from output "No response generated"
  then (chat_history ++ [("human", VStr user_input)]) ++ [("assistant", output)]
  else chat_history.

(** [if len(chat_history) > 20: chat_history = chat_history[-20:]]. *)
Definition keep_last_20 (chat_history : list entry) : list entry :=
  if (20 <? List.length chat_history)%nat then last_n 20 chat_history
  else chat_history.

(** [if chat_history is None: chat_history = []]. *)
Definition history_or_empty (chat_history : option (list entry)) : list entry :=
  match chat_history with
  | None => []
  | Some h => h
  end.

(** [if agent_executor is None: agent_executor = create_agent()]. *)
Definition executor_or_create (create_agent : result executor)
    (agent_executor : option executor) : result executor :=
  match agent_executor with
  | None => create_agent
  | Some e => Ok e
  end.

(** [chat]: the value returned and the global [chat_history] after the
    call.  [create_agent] is the outcome of calling [create_agent()], and
    [chat_history] the global before the call ([None] when it holds
    Python's [None]). *)
Definition chat (create_agent : result executor) (user_input : string)
    (agent_executor : option executor) (chat_history : option (list entry))
  : pyval * option (list entry) :=
  let chat_history := history_or_empty chat_history in
  let formatted_history := format_history chat_history in
  match executor_or_create create_agent agent_executor with
  | Ok agent_executor =>
      let output := agent_output (agent_executor user_input formatted_history) in
      let chat_history := update_history chat_history user_input output in
      let chat_history := keep_last_20 chat_history in
      (if truthy output then output
       else VStr "I'm not sure how to respond to that. Could you rephrase?",
       Some chat_history)
  | Raise _ =>
      (VStr "I'm sorry, I encountered an error processing your request. Please try again.",
       Some chat_history)
  end.

(** One thing the program does to the global [chat_history]: a call of
    [chat], or the [chat_history.clear()] of the command loop. *)
Inductive action : Type :=
| Chat (create_agent : result executor) (user_input : string)
       (agent_executor : option executor)
| Clear.

Definition perform (chat_history : option (list entry)) (a : action)
  : option (list entry) :=
  match a with
  | Chat create_agent user_input agent_executor =>
      snd (chat create_agent user_input agent_executor chat_history)
  | Clear => Some []
  end.

(** The global [chat_history] after a run of the program, which starts
    from the empty list. *)
Definition history_after (actions : list action) : option (list entry) :=
  fold_left perform actions (Some []).

(** [len(chat_history)]. *)
Definition history_length (chat_history : option (list entry)) : nat :=
  match chat_history with
  | None => 0
  | Some h => List.length h
  end.

(** The two entries [chat] appends for one exchange, given as the input of
    the user and the text answered. *)
Definition exchange_entries (x : string * string) : list entry :=
  [("human", VStr (fst x)); ("assistant", VStr (snd x))].

(** The two messages the executor is handed for one exchange. *)
Definition exchange_messages (x : string * string) : list message :=
  [HumanMessage (VStr (fst x)); AIMessage (VStr (snd x))].

(** A history made of whole exchanges, at most ten, whose answers are
    texts that are neither empty nor "No response generated". *)
Definition whole_exchanges (chat_history : option (list entry))
    (xs : list (string * string)) : Prop :=
  chat_history = Some (flat_map exchange_entries xs) /\
  (List.length xs <= 10)%nat /\
  Forall (fun x => snd x <> "" /\ snd x <> "No response generated") xs.

End Agent.

(** ** The chat renderer (app.py) *)

Module App.
Import Py.

(** A message of the session: a dict with the keys "role", "content" and
    "ts", each of which [render_chat_html] reads with a default. *)
Record msg : Type := {
  role : option string;
  content : option string;
  ts : option Z
}.

(** [d.get(key, default)] on one key of a message. *)
Definition get {A : Type} (field : option A) (default : A) : A :=
  match field with
  | Some v => v
  | None => default
  end.

Section Render.

(** [time.time()], and [time.strftime("%H:%M", time.localtime(ts))]. *)
Variable time_time : Z.
Variable strftime_HM : Z -> string.

(** The body of the loop [for msg in messages]. *)
Definition render_msg (html_parts : list string) (m : msg) : list string :=
  let role := get (role m) "user" in
  let content := get (content m) "" in
  let ts := get (ts m) time_time in
  let ts_str := strftime_HM ts in
  let safe_content := replace LF "<br>" content in
  if String.eqb role "user" then
    let bubble :=
      "<div style='display:flex; justify-content:flex-end;'>"
        ++ "<div class='msg-user'>" ++ safe_content
        ++ "<div class='meta'>You • " ++ ts_str ++ "</div></div></div>" in
    (html_parts ++ [bubble])%list
  else
    let bubble :=
      "<div style='display:flex; justify-content:flex-start;'>"
        ++ "<div class='msg-assistant'>" ++ safe_content
        ++ "<div class='meta-assistant'>AI Chef • " ++ ts_str ++ "</div></div></div>" in
    (html_parts ++ [bubble])%list.

Definition render_chat_html (messages : list msg) : string :=
  match messages with
  | [] =>
      let html_parts :=
        [ "<div id='chatbox'>";
          "<div style='text-align:center; padding:60px 20px; color:#718096;'>";
          "<div style='font-size:48px; margin-bottom:20px;'>🍽️</div>";
          "<div style='font-size:18px; font-weight:600; margin-bottom:10px;'>Welcome to Restaurant Crawl Planner!</div>";
          "<div style='font-size:14px;'>Tell me your city, cuisine preference, and budget to get started.</div>";
          "<div style='font-size:13px; margin-top:15px; color:#a0aec0;'>Example: 'Plan a half-day street food crawl in Mumbai with low budget'</div>";
          "</div>";
          "</div>" ] in
      join LF html_parts
  | _ :: _ =>
      let html_parts := ["<div id='chatbox'>"] in
      let html_parts := fold_left render_msg messages html_parts in
      let html_parts := (html_parts ++ ["</div>"])%list in
      join LF html_parts
  end.

End Render.

End App.

(** ** The session and the submit handler (app.py) *)

Module AppSession.
Import Py Agent App.

(** The part of [st.session_state] the handlers of the chat work on.  The
    session also holds a session id and the text of the last traceback,
    which are only displayed. *)
Record session : Type := {
  messages : list msg;
  agent_ready : bool;
  agent_executor : option executor
}.

Definition with_messages (s : session) (ms : list msg) : session :=
  {| messages := ms;
     agent_ready := agent_ready s;
     agent_executor := agent_executor s |}.

(** [get_agent_executor_cached]; [create_agent] is [None] when the import
    of the agent module has failed with the error [import_error], and
    otherwise the outcome of calling it. *)
Definition get_agent_executor_cached (create_agent : option (result executor))
    (import_error : string) : result executor :=
  match create_agent with
  | None => Raise ("agent.create_agent import failed: " ++ import_error)
  | Some created => created
  end.

(** [ensure_agent_ready]: what it returns or raises, and the session after
    it.  [cached] is the outcome of [get_agent_executor_cached()]. *)
Definition ensure_agent_ready (cached : result executor) (s : session)
  : result executor * session :=
  match agent_ready s, agent_executor s with
  | true, Some e => (Ok e, s)
  | _, _ =>
      match cached with
      | Ok agent_exec =>
          (Ok agent_exec,
           {| messages := messages s;
              agent_ready := true;
              agent_executor := Some agent_exec |})
      | Raise e => (Raise e, s)
      end
  end.

(** [messages[i]["role"]]: a message without the key raises [KeyError]. *)
Definition role_of (m : msg) : result string :=
  match role m with
  | Some r => Ok r
  | None => Raise "'role'"
  end.

(** [l[i] = x] for [i] within the list. *)
Fixpoint list_set {A : Type} (l : list A) (i : nat) (x : A) : list A :=
  match l, i with
  | [], _ => []
  | _ :: l', O => x :: l'
  | y :: l', S i' => y :: list_set l' i' x
  end.

(** The loop [for i in range(len(messages) - 1, -1, -1)] that puts
    [response] and the time [now] in the last assistant message and stops;
    [k] is the number of indices still to visit, [k - 1] the next one. *)
Fixpoint update_last_assistant_from (k : nat) (ms : list msg)
    (response : string) (now : Z) : result (list msg) :=
  match k with
  | O => Ok ms
  | S i =>
      match nth_error ms i with
      | None => Raise "list index out of range"
      | Some m =>
          bind (role_of m) (fun r =>
          if String.eqb r "assistant" then
            Ok (list_set ms i
                  {| role := role m; content := Some response; ts := Some now |})
          else update_last_assistant_from i ms response now)
      end
  end.

Definition update_last_assistant (ms : list msg) (response : string) (now : Z)
  : result (list msg) :=
  update_last_assistant_from (List.length ms) ms response now.

(** The text shown for what [agent_chat(text, agent_exec)] returns or
    raises. *)
Definition shown_response (reply : result pyval) : string :=
  match reply with
  | Ok VNone =>
      "I didn't receive a response. Please try again with your city, cuisine preference, and budget."
  | Ok v => str_of v
  | Raise e => "I encountered an error: " ++ e ++ ". Please try again."
  end.

(** The handler of a submitted [text] (already stripped, not empty), on the
    session: the session after it, or the exception it lets through.
    [agent_chat] is the call of the chat function; [t_user], [t_thinking]
    and [t_reply] are the values [time.time()] gives for the message of the
    user, for the placeholder and for the reply. *)
Definition handle_submit (cached : result executor)
    (agent_chat : string -> executor -> result pyval)
    (text : string) (t_user t_thinking t_reply : Z) (s : session)
  : result session :=
  let s := with_messages s
             (messages s ++ [ {| role := Some "user"; content := Some text;
                                 ts := Some t_user |} ]) in
  let s := with_messages s
             (messages s ++
                [ {| role := Some "assistant";
                     content := Some "🤔 Planning your perfect food crawl...";
                     ts := Some t_thinking |} ]) in
  let '(agent_exec, s) :=
    match agent_executor s with
    | Some e => (Ok e, s)
    | None => ensure_agent_ready cached s
    end in
  let attempt :=
    bind agent_exec (fun agent_exec =>
    let response := shown_response (agent_chat text agent_exec) in
    update_last_assistant (messages s) response t_reply) in
  match attempt with
  | Ok ms => Ok (with_messages s ms)
  | Raise _ =>
      bind (update_last_assistant (messages s)
              "⚠️ I encountered an error. Please check your API keys and try again."
              t_reply)
           (fun ms => Ok (with_messages s ms))
  end.

End AppSession.

(** ** Facts on binary64 rounding *)

Module FloatFacts.
Import Py.

Lemma digits2_pos_size (p : positive) : digits2_pos p = Pos.size p.
Proof. induction p; simpl; congruence. Qed.

Lemma Zdigits2_upper (q d : Z) : 0 <= d -> 0 <= q < 2 ^ d -> Zdigits2 q <= d.
Proof.
  intros Hd [Hq Hlt]. destruct q as [|p|p]; simpl; try lia.
  rewrite digits2_pos_size.
  pose proof (Pos.size_le p) as H.
  apply Pos2Z.pos_le_pos in H. rewrite Pos2Z.inj_pow in H.
  change (Z.pos p~0) with (2 * Z.pos p) in H.
  assert (2 ^ Z.pos (Pos.size p) < 2 ^ (d + 1)).
  { rewrite Z.pow_add_r, Z.pow_1_r by lia. lia. }
  apply Z.pow_lt_mono_r_iff in H0; lia.
Qed.

Lemma Zdigits2_lower (p : positive) (k : Z) :
  0 <= k -> 2 ^ k <= Z.pos p -> k < Z.pos (digits2_pos p).
Proof.
  intros Hk H. rewrite digits2_pos_size.
  pose proof (Pos.size_gt p) as G.
  apply Pos2Z.pos_lt_pos in G. rewrite Pos2Z.inj_pow in G.
  apply (Z.pow_lt_mono_r_iff 2); lia.
Qed.

Lemma iter_pos_nat {A : Type} (f : A -> A) (p : positive) (x : A) :
  iter_pos f p x = Nat.iter (Pos.to_nat p) f x.
Proof.
  revert x. induction p as [p IH|p IH|]; intros x; cbn [iter_pos].
  - rewrite !IH, Pos2Nat.inj_xI, <- Nat.iter_add, <- Nat.iter_succ_r.
    f_equal. lia.
  - rewrite !IH, Pos2Nat.inj_xO, <- Nat.iter_add. f_equal. lia.
  - reflexivity.
Qed.

Lemma shr_1_spec (mrs : shr_record) :
  0 <= shr_m mrs ->
  shr_m (shr_1 mrs) = shr_m mrs / 2 /\
  (lossless mrs -> (2 | shr_m mrs) -> lossless (shr_1 mrs)).
Proof.
  destruct mrs as [m r s]. unfold lossless. simpl. intros Hm.
  destruct m as [|[p|p|]|]; simpl; try lia.
  - split; [reflexivity | intros [-> ->] _; auto].
  - split.
    + apply Z.div_unique with (r := 1); lia.
    + intros _ [k Hk]. lia.
  - split.
    + apply Z.div_unique with (r := 0); lia.
    + intros [-> ->] _. auto.
  - split; [reflexivity | intros _ [k Hk]; lia].
Qed.

Lemma iter_shr_1_spec (n : nat) (mrs : shr_record) :
  0 <= shr_m mrs ->
  shr_m (Nat.iter n shr_1 mrs) = shr_m mrs / 2 ^ Z.of_nat n /\
  (lossless mrs -> (2 ^ Z.of_nat n | shr_m mrs) ->
   lossless (Nat.iter n shr_1 mrs)).
Proof.
  intros Hm. induction n as [|n [IHm IHl]].
  - simpl. rewrite Z.div_1_r. auto.
  - rewrite Nat2Z.inj_succ, Z.pow_succ_r by lia. simpl Nat.iter.
    assert (Hpos : 0 <= shr_m (Nat.iter n shr_1 mrs)).
    { rewrite IHm. apply Z.div_pos; lia. }
    destruct (shr_1_spec _ Hpos) as [Sm Sl]. split.
    + rewrite Sm, IHm, Z.div_div by lia. f_equal. lia.
    + intros L [k Hk]. apply Sl.
      * apply IHl; [exact L|]. exists (k * 2). lia.
      * rewrite IHm, Hk. exists k.
        replace (k * (2 * 2 ^ Z.of_nat n)) with (k * 2 * 2 ^ Z.of_nat n) by lia.
        rewrite Z.div_mul by lia. lia.
Qed.

Lemma shr_record_of_loc_m (m : Z) (l : location) :
  shr_m (shr_record_of_loc m l) = m.
Proof. destruct l as [|[]]; reflexivity. Qed.

Lemma loc_of_lossless (mrs : shr_record) :
  lossless mrs -> loc_of_shr_record mrs = loc_Exact.
Proof. destruct mrs as [m r s]. intros [H1 H2]. simpl in *. subst. reflexivity. Qed.

(** The first step of rounding: the mantissa is shifted to the exponent
    the format gives to a number of its size. *)
Lemma shr_fexp_spec (m e : Z) (l : location) :
  0 <= m ->
  exists mrs e',
    shr_fexp prec emax m e l = (mrs, e') /\
    e' = Z.max e (fexp prec emax (Zdigits2 m + e)) /\
    shr_m mrs = m / 2 ^ (e' - e) /\
    (l = loc_Exact -> (2 ^ (e' - e) | m) -> loc_of_shr_record mrs = loc_Exact).
Proof.
  intros Hm. unfold shr_fexp, shr.
  destruct (fexp prec emax (Zdigits2 m + e) - e) as [|p|p] eqn:E.
  - exists (shr_record_of_loc m l), e. rewrite Z.sub_diag, Z.div_1_r.
    repeat split; [lia | apply shr_record_of_loc_m |].
    intros -> _. reflexivity.
  - exists (iter_pos shr_1 p (shr_record_of_loc m l)), (e + Z.pos p).
    rewrite iter_pos_nat.
    destruct (iter_shr_1_spec (Pos.to_nat p) (shr_record_of_loc m l)) as [Sm Sl].
    { rewrite shr_record_of_loc_m. exact Hm. }
    rewrite shr_record_of_loc_m, positive_nat_Z in *.
    replace (e + Z.pos p - e) with (Z.pos p) by lia.
    repeat split; [lia | exact Sm |].
    intros -> D. apply loc_of_lossless, Sl; [split; reflexivity | exact D].
  - exists (shr_record_of_loc m l), e. rewrite Z.sub_diag, Z.div_1_r.
    repeat split; [lia | apply shr_record_of_loc_m |].
    intros -> _. reflexivity.
Qed.

Lemma round_nearest_even_bounds (m : Z) (l : location) :
  m <= round_nearest_even m l <= m + 1.
Proof.
  destruct l as [|[]]; simpl; try lia. destruct (Z.even m); lia.
Qed.

Lemma div_pow2_le (q K ex e1 eb : Z) :
  ex <= e1 <= eb -> q <= K * 2 ^ (eb - ex) ->
  q / 2 ^ (e1 - ex) <= K * 2 ^ (eb - e1).
Proof.
  intros He Hq.
  replace (eb - ex) with ((eb - e1) + (e1 - ex)) in Hq by lia.
  rewrite Z.pow_add_r in Hq by lia.
  apply Z.div_le_upper_bound; [apply Z.pow_pos_nonneg; lia | lia].
Qed.

Lemma fexp_le (q K ex eb : Z) :
  0 < K < 2 ^ prec -> emin prec emax <= eb -> ex <= eb ->
  0 <= q <= K * 2 ^ (eb - ex) ->
  fexp prec emax (Zdigits2 q + ex) <= eb.
Proof.
  intros HK Hmin He Hq. unfold fexp.
  assert (Zdigits2 q <= prec + (eb - ex)); [|lia].
  apply Zdigits2_upper; [unfold prec; lia|].
  rewrite Z.pow_add_r by (unfold prec; lia).
  assert (0 < 2 ^ (eb - ex)) by (apply Z.pow_pos_nonneg; lia).
  nia.
Qed.

(** Rounding does not cross a float of the format: when the number
    [q * 2 ^ ex], with the position [lx] of its lost part, is at most
    [K * 2 ^ eb] with [K] of [prec] bits, so is its rounding. *)
Lemma binary_round_aux_below (sx : bool) (q ex : Z) (lx : location) (K eb : Z) :
  0 <= q -> 0 < K < 2 ^ prec -> emin prec emax <= eb <= emax - prec ->
  ex <= eb ->
  q < K * 2 ^ (eb - ex) \/ (q = K * 2 ^ (eb - ex) /\ lx = loc_Exact) ->
  below (binary_round_aux prec emax sx q ex lx) K eb.
Proof.
  intros Hq HK Heb Hex Hle. unfold binary_round_aux.
  destruct (shr_fexp_spec q ex lx Hq) as (mrs1 & e1 & E1 & He1 & M1 & L1).
  rewrite E1.
  assert (Hq' : 0 <= q <= K * 2 ^ (eb - ex)) by lia.
  pose proof (fexp_le q K ex eb HK (proj1 Heb) Hex Hq') as F1.
  assert (B1 : ex <= e1 <= eb) by lia.
  pose proof (div_pow2_le q K ex e1 eb B1 (proj2 Hq')) as D1.
  rewrite <- M1 in D1.
  assert (P1 : 0 <= shr_m mrs1).
  { rewrite M1. apply Z.div_pos; [lia | apply Z.pow_pos_nonneg; lia]. }
  set (mr := round_nearest_even (shr_m mrs1) (loc_of_shr_record mrs1)).
  assert (Hmr : 0 <= mr <= K * 2 ^ (eb - e1)).
  { pose proof (round_nearest_even_bounds (shr_m mrs1) (loc_of_shr_record mrs1)) as R.
    fold mr in R. split; [lia|].
    destruct (Z.eq_dec (shr_m mrs1) (K * 2 ^ (eb - e1))) as [Heq|Hne]; [|lia].
    assert (Hpk : 0 < 2 ^ (e1 - ex)) by (apply Z.pow_pos_nonneg; lia).
    assert (Hsplit : K * 2 ^ (eb - ex) = K * 2 ^ (eb - e1) * 2 ^ (e1 - ex)).
    { replace (eb - ex) with ((eb - e1) + (e1 - ex)) by lia.
      rewrite Z.pow_add_r by lia. lia. }
    assert (Hlow : K * 2 ^ (eb - e1) * 2 ^ (e1 - ex) <= q).
    { rewrite <- Heq, M1, Z.mul_comm. apply Z.mul_div_le. exact Hpk. }
    destruct Hle as [Hlt|[Hqeq ->]]; [lia|].
    unfold mr. rewrite L1; [simpl; lia | reflexivity |].
    exists (K * 2 ^ (eb - e1)). lia. }
  destruct (shr_fexp_spec mr e1 loc_Exact (proj1 Hmr)) as (mrs2 & e2 & E2 & He2 & M2 & _).
  rewrite E2.
  pose proof (fexp_le mr K e1 eb HK (proj1 Heb) (proj2 B1) Hmr) as F2.
  assert (B2 : e1 <= e2 <= eb) by lia.
  pose proof (div_pow2_le mr K e1 e2 eb B2 (proj2 Hmr)) as D2.
  rewrite <- M2 in D2.
  assert (P2 : 0 <= shr_m mrs2).
  { rewrite M2. apply Z.div_pos; [lia | apply Z.pow_pos_nonneg; lia]. }
  destruct (shr_m mrs2) as [|m|m]; [exact I | | lia].
  cbn iota. destruct (Z.leb_spec e2 (emax - prec)) as [_|Hgt]; [|lia].
  split; [lia | exact D2].
Qed.

Lemma new_location_zero (nb : Z) : new_location nb 0 = loc_Exact.
Proof. unfold new_location. destruct (Z.even nb); reflexivity. Qed.

(** The quotient of two positive integers, rounded: it is at most
    [K * 2 ^ eb] when the exact quotient is. *)
Lemma SFdiv_ints_below (a b : positive) (K eb : Z) :
  0 < K < 2 ^ prec -> emin prec emax <= eb <= 0 ->
  fexp prec emax (Z.pos (digits2_pos a) - Z.pos (digits2_pos b)) <= eb ->
  Z.pos a * 2 ^ (- eb) <= K * Z.pos b ->
  below (SFdiv prec emax (S754_finite false a 0) (S754_finite false b 0)) K eb.
Proof.
  intros HK Heb Hfexp Hquot. unfold SFdiv, SFdiv_core_binary.
  cbn [Zdigits2 xorb]. rewrite !Z.add_0_r, Z.sub_diag.
  set (e' := Z.min _ 0).
  assert (He' : e' <= eb /\ e' <= 0) by (unfold e'; lia).
  set (m' := match 0 - e' with
             | 0 => Z.pos a
             | Z.pos _ => Z.shiftl (Z.pos a) (0 - e')
             | Z.neg _ => 0
             end).
  assert (Hm' : m' = Z.pos a * 2 ^ (- e')).
  { unfold m'. destruct (0 - e') as [|p|p] eqn:E; [| |lia].
    - replace (- e') with 0 by lia. lia.
    - rewrite Z.shiftl_mul_pow2 by lia. f_equal. f_equal. lia. }
  pose proof (Z_div_mod m' (Z.pos b) eq_refl) as DM.
  destruct (Z.div_eucl m' (Z.pos b)) as [q r]. destruct DM as [Dq Dr].
  assert (Hp : 0 < 2 ^ (eb - e')) by (apply Z.pow_pos_nonneg; lia).
  assert (Hsplit : 2 ^ (- e') = 2 ^ (- eb) * 2 ^ (eb - e')).
  { rewrite <- Z.pow_add_r by lia. f_equal. lia. }
  assert (Hup : m' <= K * 2 ^ (eb - e') * Z.pos b).
  { rewrite Hm', Hsplit. nia. }
  assert (Hq0 : 0 <= q) by nia.
  apply binary_round_aux_below;
    [exact Hq0 | exact HK | split; [tauto | unfold emax, prec; lia] | lia |].
  destruct (Z.eq_dec q (K * 2 ^ (eb - e'))) as [Heq|Hne].
  - right. split; [exact Heq|].
    assert (r = 0) by nia. subst r. apply new_location_zero.
  - left. nia.
Qed.

Lemma float_of_int_60 :
  float_of_int 60 = Ok (S754_finite false 8444249301319680 (-47)).
Proof. reflexivity. Qed.

Lemma int_of_float_below_one (x : spec_float) :
  below x 16365 (-14) -> int_of_float x = Ok 0.
Proof.
  destruct x as [s|s| |s m e]; cbn [below int_of_float]; try tauto.
  intros [He Hm]. destruct e as [|k|k]; try lia.
  rewrite Z.shiftr_div_pow2 by lia.
  rewrite Z.div_small; [destruct s; reflexivity|].
  split; [lia|].
  assert (0 < 2 ^ (-14 - Z.neg k)) by (apply Z.pow_pos_nonneg; lia).
  replace (Z.pos k) with (14 + (-14 - Z.neg k)) by lia.
  rewrite Z.pow_add_r by lia. change (2 ^ 14) with 16384. lia.
Qed.

(** A quotient below [1091 * 2 ^ -16], which is less than one sixtieth,
    gives stops of no minute. *)
Lemma stop_duration_below (x : spec_float) :
  below x 1091 (-16) -> Agent.stop_duration_of x = Ok 0.
Proof.
  intros Hx. unfold Agent.stop_duration_of, float_mul_int.
  rewrite float_of_int_60. cbn [bind].
  apply int_of_float_below_one.
  destruct x as [s|s| |s m e]; cbn [below] in Hx; try tauto.
  destruct Hx as [He Hm]. cbn [SFmul].
  assert (Hp : 0 < 2 ^ (-16 - e)) by (apply Z.pow_pos_nonneg; lia).
  apply binary_round_aux_below.
  - lia.
  - unfold prec. change (2 ^ 53) with 9007199254740992. lia.
  - unfold prec, emin, emax. lia.
  - lia.
  - replace (-14 - (e + -47)) with (49 + (-16 - e)) by lia.
    rewrite Z.pow_add_r by lia. change (2 ^ 49) with 562949953421312.
    rewrite Pos2Z.inj_mul.
    destruct (Z.eq_dec (Z.pos m * 8444249301319680)
                (16365 * (562949953421312 * 2 ^ (-16 - e)))) as [Heq|Hne];
      [right; split; [exact Heq | reflexivity] | left; lia].
Qed.

(** Up to 600 stops the two float operations and the truncation are run. *)
Lemma stop_duration_upto_600 :
  forallb (fun n =>
    forallb (fun total_hours =>
      match bind (int_truediv total_hours n) Agent.stop_duration_of with
      | Ok d => d =? total_hours * 60 / n
      | Raise _ => false
      end) [5; 10]) (range 1 601) = true.
Proof. vm_compute. reflexivity. Qed.

(** The floats of [calculate_crawl_timing] lose nothing: the minutes of a
    stop are the integer quotient of the minutes of the crawl by the number
    of stops. *)
Lemma stop_duration_floor (total_hours n : Z) :
  total_hours = 5 \/ total_hours = 10 -> 1 <= n ->
  exists x, int_truediv total_hours n = Ok x /\
            Agent.stop_duration_of x = Ok (total_hours * 60 / n).
Proof.
  intros HT Hn. destruct (Z.le_gt_cases n 600) as [Hsmall|Hlarge].
  - pose proof stop_duration_upto_600 as H.
    rewrite forallb_forall in H. specialize (H n).
    assert (Hin : In n (range 1 601)).
    { unfold range. apply in_map_iff. exists (Z.to_nat (n - 1)).
      split; [lia | apply in_seq; lia]. }
    apply H in Hin. rewrite forallb_forall in Hin.
    specialize (Hin total_hours).
    assert (Hin' : In total_hours [5; 10]) by (simpl; lia).
    apply Hin in Hin'.
    destruct (int_truediv total_hours n) as [x|msg]; [|discriminate].
    exists x. split; [reflexivity|]. cbn [bind] in Hin'.
    destruct (Agent.stop_duration_of x) as [d|msg]; [|discriminate].
    apply Z.eqb_eq in Hin'. congruence.
  - rewrite (Z.div_small (total_hours * 60) n) by lia.
    destruct n as [|b|b]; try lia. unfold int_truediv.
    replace (Z.pos b =? 0) with false by reflexivity.
    assert (Hb : 9 < Z.pos (digits2_pos b)) by (apply Zdigits2_lower; lia).
    assert (B : below (SFdiv prec emax (exact_of_int total_hours)
                         (exact_of_int (Z.pos b))) 1091 (-16)).
    { destruct HT as [-> | ->]; cbn [exact_of_int];
        apply SFdiv_ints_below;
        try (unfold prec, emin, emax; lia);
        try (unfold fexp, prec, emin, emax; simpl digits2_pos; lia);
        unfold prec; change (2 ^ 53) with 9007199254740992; lia. }
    destruct (SFdiv prec emax (exact_of_int total_hours) (exact_of_int (Z.pos b)))
      as [s|s| |s m e] eqn:E; cbn [below] in B; try tauto.
    + exists (S754_zero s). split; [reflexivity|].
      apply stop_duration_below. exact I.
    + exists (S754_finite s m e). split; [reflexivity|].
      apply stop_duration_below. exact B.
Qed.

End FloatFacts.

(** ** Facts on strings and lists *)

Module StringFacts.
Import Py.

Lemma append_assoc (a b c : string) : (a ++ b) ++ c = a ++ (b ++ c).
Proof. induction a as [|ch a IH]; simpl; [reflexivity | now rewrite IH]. Qed.

Lemma append_empty_r (a : string) : a ++ "" = a.
Proof. induction a as [|ch a IH]; simpl; [reflexivity | now rewrite IH]. Qed.

Lemma concat_empty_cons (x : string) (xs : list string) :
  String.concat "" (x :: xs) = x ++ String.concat "" xs.
Proof. destruct xs; simpl; [now rewrite append_empty_r | reflexivity]. Qed.

Lemma concat_empty_app (xs ys : list string) :
  String.concat "" (xs ++ ys) = String.concat "" xs ++ String.concat "" ys.
Proof.
  induction xs as [|x xs IH]; [reflexivity|].
  change ((x :: xs) ++ ys)%list with (x :: (xs ++ ys))%list.
  now rewrite !concat_empty_cons, IH, append_assoc.
Qed.

Lemma range_cons (a : Z) (len : nat) :
  map (fun k => a + Z.of_nat k) (seq 0 (S len))
  = a :: map (fun k => (a + 1) + Z.of_nat k) (seq 0 len).
Proof.
  cbn [seq map]. f_equal; [lia|].
  rewrite <- seq_shift, map_map. apply map_ext. intros k. lia.
Qed.

Lemma range_length (a b : Z) : List.length (range a b) = Z.to_nat (b - a).
Proof. unfold range. now rewrite length_map, length_seq. Qed.

End StringFacts.

(** ** Facts on the schedule of a crawl *)

Module CrawlFacts.
Import Py Agent StringFacts.

Lemma carry_minutes_spec (hour minute : Z) :
  0 <= minute ->
  carry_minutes hour minute = (hour + minute / 60, minute mod 60).
Proof.
  funelim (carry_minutes hour minute); intros Hm.
  - rewrite H by lia. f_equal; Z.div_mod_to_equations; lia.
  - f_equal; Z.div_mod_to_equations; lia.
Qed.

(** The loop over the stops adds one line per stop, in order, and fails at
    none. *)
Lemma for_each_crawl_step (x : spec_float) (d : Z) :
  stop_duration_of x = Ok d -> 0 <= d ->
  forall (len : nat) (i : Z) (st : crawl_state),
    0 <= current_min st ->
    exists st',
      for_each (crawl_step x) (map (fun k => i + Z.of_nat k) (seq 0 len)) st
        = Ok st' /\
      schedule st' =
        schedule st ++
        String.concat ""
          (map render_stop
             (stops_from i (current_hour st) (current_min st) d len)).
Proof.
  intros Hd Hd0. induction len as [|len IH]; intros i st Hmin.
  - exists st. split; [reflexivity|]. simpl. now rewrite append_empty_r.
  - rewrite range_cons. cbn [for_each stops_from map].
    unfold crawl_step at 1. rewrite Hd. cbn [bind].
    rewrite carry_minutes_spec by lia.
    set (st1 := {| schedule := _; current_hour := _; current_min := _ |}).
    destruct (IH (i + 1) st1) as (st' & Hrun & Hsched).
    { simpl. apply Z.mod_pos_bound. lia. }
    exists st'. split; [exact Hrun|].
    rewrite Hsched, concat_empty_cons. unfold st1. cbn [schedule current_hour current_min].
    rewrite append_assoc. reflexivity.
Qed.

(** The clock of every stop: minutes within the hour, and as many minutes
    since the first stop as the stops before it have taken. *)
Lemma stops_from_clock (d : Z) (len : nat) (i hour minute : Z) :
  0 <= d -> 0 <= minute < 60 ->
  Forall (fun s =>
            0 <= stop_minute s <= 59 /\
            stop_length s = d /\
            i <= stop_index s < i + Z.of_nat len /\
            60 * stop_hour s + stop_minute s
              = 60 * hour + minute + (stop_index s - i) * d)
         (stops_from i hour minute d len).
Proof.
  intros Hd. revert i hour minute.
  induction len as [|len IH]; intros i hour minute Hm; [constructor|].
  cbn [stops_from]. constructor.
  - cbn. lia.
  - specialize (IH (i + 1) (hour + (minute + d) / 60) ((minute + d) mod 60)).
    eapply Forall_impl; [|apply IH; apply Z.mod_pos_bound; lia].
    intros s (H1 & H2 & H3 & H4). repeat split; try lia.
    rewrite H4. Z.div_mod_to_equations. nia.
Qed.

Lemma stops_from_length (i hour minute d : Z) (len : nat) :
  List.length (stops_from i hour minute d len) = len.
Proof.
  revert i hour minute. induction len as [|len IH]; intros; simpl; [|rewrite IH];
    reflexivity.
Qed.

Lemma stops_from_index (i hour minute d : Z) (len : nat) :
  map stop_index (stops_from i hour minute d len)
  = map (fun k => i + Z.of_nat k) (seq 0 len).
Proof.
  revert i hour minute. induction len as [|len IH]; intros; [reflexivity|].
  rewrite range_cons. cbn [stops_from map stop_index]. now rewrite IH.
Qed.

Lemma crawl_plan_cases (duration : string) :
  crawl_plan duration = ("11:00 AM", 5, "Half-Day Food Crawl") \/
  crawl_plan duration = ("10:00 AM", 10, "Full-Day Food Crawl").
Proof. unfold crawl_plan. destruct (contains "half" (lower duration)); auto. Qed.

Lemma initial_hour_cases (duration : string) :
  initial_hour duration = 10 \/ initial_hour duration = 11.
Proof. unfold initial_hour. destruct (contains "full" (lower duration)); auto. Qed.

(** The schedule of a crawl of at least one stop: the header, then one line
    per stop, the stops being those met from 1 and from the initial hour,
    each of the quotient of the minutes of the crawl by the number of
    stops. *)
Lemma crawl_schedule (duration : string) (num_stops : Z) :
  1 <= num_stops ->
  let total_hours := snd (fst (crawl_plan duration)) in
  let activity := snd (crawl_plan duration) in
  let d := total_hours * 60 / num_stops in
  bind (int_truediv total_hours num_stops) stop_duration_of = Ok d /\
  calculate_crawl_timing duration num_stops =
    Ok (schedule_header activity num_stops ++
        String.concat ""
          (map render_stop
             (stops_from 1 (initial_hour duration) 0 d (Z.to_nat num_stops)))).
Proof.
  intros Hn. unfold calculate_crawl_timing.
  assert (HT : snd (fst (crawl_plan duration)) = 5 \/
               snd (fst (crawl_plan duration)) = 10).
  { destruct (crawl_plan_cases duration) as [-> | ->]; auto. }
  destruct (crawl_plan duration) as [[start_time total_hours] activity].
  cbn [fst snd] in *. set (d := total_hours * 60 / num_stops).
  destruct (FloatFacts.stop_duration_floor total_hours num_stops HT Hn)
    as (x & Hdiv & Hdur).
  fold d in Hdur |- *.
  assert (Hd0 : 0 <= d) by (apply Z.div_pos; lia).
  rewrite Hdiv. cbn [bind]. split; [exact Hdur|]. unfold range.
  replace (Z.to_nat (num_stops + 1 - 1)) with (Z.to_nat num_stops) by lia.
  set (st0 := {| schedule := _; current_hour := _; current_min := _ |}).
  destruct (for_each_crawl_step x d Hdur Hd0 (Z.to_nat num_stops) 1 st0)
    as (st' & Hrun & Hsched); [simpl; lia|].
  rewrite Hrun. cbn [bind try_except]. rewrite Hsched. reflexivity.
Qed.

(** The hour shown on 12 hours is the hour modulo 12, with 12 for 0. *)
Lemma display_hour_of_12 (hour : Z) :
  0 <= hour < 24 -> display_hour_of hour = (hour + 11) mod 12 + 1.
Proof.
  intros Hh. unfold display_hour_of.
  destruct (Z.leb_spec hour 12);
    match goal with |- context [?a =? 0] => destruct (Z.eqb_spec a 0) end;
    Z.div_mod_to_equations; lia.
Qed.

Lemma format_02d_below_60 :
  forallb (fun m => String.eqb (format_02d m) (str (m / 10) ++ str (m mod 10)))
          (range 0 60) = true.
Proof. vm_compute. reflexivity. Qed.

(** A minute is written with its two digits. *)
Lemma format_02d_two_digits (minute : Z) :
  0 <= minute <= 59 ->
  format_02d minute = str (minute / 10) ++ str (minute mod 10).
Proof.
  intros Hm. pose proof format_02d_below_60 as H.
  rewrite forallb_forall in H. apply String.eqb_eq, H.
  unfold range. apply in_map_iff. exists (Z.to_nat minute).
  split; [lia | apply in_seq; lia].
Qed.

(** The text of the line of a stop, for a clock within the day. *)
Lemma stop_line_text (i hour minute d : Z) :
  0 <= minute <= 59 -> 0 <= hour < 24 ->
  stop_line i hour minute d =
    "Stop " ++ str i ++ ": " ++ str ((hour + 11) mod 12 + 1) ++ ":"
      ++ str (minute / 10) ++ str (minute mod 10)
      ++ " " ++ (if hour <? 12 then "AM" else "PM")
      ++ " (Duration: " ++ str d ++ " mins)" ++ LF.
Proof.
  intros Hm Hh. unfold stop_line, am_pm_of.
  rewrite display_hour_of_12, format_02d_two_digits by lia.
  rewrite (append_assoc (str (minute / 10))). reflexivity.
Qed.

(** The schedule of a crawl of at least one stop, as a text: the header,
    and for each stop its number, its clock on 12 hours and its duration. *)
Lemma crawl_schedule_text (duration : string) (num_stops : Z) :
  1 <= num_stops ->
  bind (int_truediv (if contains "half" (lower duration) then 5 else 10) num_stops)
       (fun time_per_stop =>
            bind (float_mul_int time_per_stop 60) int_of_float)
    = Ok ((if contains "half" (lower duration) then 5 else 10) * 60 / num_stops) /\
  calculate_crawl_timing duration num_stops =
    Ok ((if contains "half" (lower duration)
             then "Half-Day Food Crawl" else "Full-Day Food Crawl")
            ++ " Schedule (" ++ str num_stops ++ " stops):" ++ LF ++ LF
          ++ String.concat ""
               (map (fun s =>
                       "Stop " ++ str (stop_index s) ++ ": "
                         ++ str ((stop_hour s + 11) mod 12 + 1) ++ ":"
                         ++ str (stop_minute s / 10) ++ str (stop_minute s mod 10)
                         ++ " " ++ (if stop_hour s <? 12 then "AM" else "PM")
                         ++ " (Duration: " ++ str (stop_length s) ++ " mins)"
                         ++ LF)
                    (stops_from 1 (if contains "full" (lower duration) then 10 else 11) 0
                       ((if contains "half" (lower duration) then 5 else 10) * 60 / num_stops) (Z.to_nat num_stops)))).
Proof.
  intros Hn. destruct (crawl_schedule duration num_stops Hn) as [Hdur Hrun].
  assert (Hplan : crawl_plan duration =
                  ((if contains "half" (lower duration)
                    then "11:00 AM" else "10:00 AM"),
                   (if contains "half" (lower duration) then 5 else 10),
                   (if contains "half" (lower duration)
                    then "Half-Day Food Crawl" else "Full-Day Food Crawl"))).
  { unfold crawl_plan. destruct (contains "half" (lower duration)); reflexivity. }
  rewrite Hplan in Hdur, Hrun. cbn [fst snd] in Hdur, Hrun.
  split; [exact Hdur|]. unfold initial_hour in Hrun.
  set (total_hours := (if contains "half" (lower duration) then 5 else 10)) in *.
  set (hour0 := (if contains "full" (lower duration) then 10 else 11)) in *.
  set (d := total_hours * 60 / num_stops) in *.
  assert (HT : 0 <= total_hours <= 10).
  { unfold total_hours. destruct (contains "half" (lower duration)); lia. }
  assert (H0 : 10 <= hour0 <= 11).
  { unfold hour0. destruct (contains "full" (lower duration)); lia. }
  assert (Hd : 0 <= d) by (unfold d; apply Z.div_pos; lia).
  assert (Hnd : num_stops * d <= total_hours * 60).
  { unfold d. apply Z.mul_div_le. lia. }
  rewrite Hrun. unfold schedule_header. rewrite !append_assoc.
  erewrite map_ext_Forall; [reflexivity|].
  eapply Forall_impl;
    [|apply (stops_from_clock d (Z.to_nat num_stops) 1 hour0 0); lia].
  intros s (Hmin & Hlen & Hidx & Hclock).
  unfold render_stop. apply stop_line_text; [exact Hmin | nia].
Qed.

End CrawlFacts.

(** ** Properties of calculate_crawl_timing *)

Section CalculateCrawlTiming.
Import Py Agent StringFacts CrawlFacts.

(** C1 (the code departs from the claim).  At the duration "day", which
    holds neither "half" nor "full", the budget is the 10 hours of a full
    day and [start_time] is "10:00 AM", but the first stop is shown at
    11:00 AM: the hour of the first stop is chosen by a second test, on
    "full", which does not agree with the test on "half". *)
Theorem calculate_crawl_timing_day_starts_at_11 :
  crawl_plan "day" = ("10:00 AM", 10, "Full-Day Food Crawl") /\
  calculate_crawl_timing "day" 1 =
    Ok ("Full-Day Food Crawl Schedule (1 stops):" ++ LF ++ LF
          ++ "Stop 1: 11:00 AM (Duration: 600 mins)" ++ LF).
Proof. split; reflexivity. Qed.

(** C3.  The schedule of a crawl of at least one stop is the header and
    one line per stop, numbered from 1, of the form
    "Stop i: H:MM AM (Duration: d mins)".  The line of a stop shows the
    running clock on 12 hours: H is the hour modulo 12, with 12 for 0, so
    between 1 and 12; MM is the minute in two digits, between 00 and 59;
    AM is shown exactly when the hour is below 12, and PM otherwise.  The
    running hour stays within the day, and the clock of a stop is the
    initial hour plus the durations of the stops before it, minutes above 59
    carried into the hour. *)
Theorem calculate_crawl_timing_clock (duration : string) (num_stops : Z) :
  1 <= num_stops ->
  exists stops : list stop,
    calculate_crawl_timing duration num_stops =
      Ok ((if contains "half" (lower duration)
             then "Half-Day Food Crawl" else "Full-Day Food Crawl")
            ++ " Schedule (" ++ str num_stops ++ " stops):" ++ LF ++ LF
            ++ String.concat ""
                 (map (fun s =>
                       "Stop " ++ str (stop_index s) ++ ": "
                         ++ str ((stop_hour s + 11) mod 12 + 1) ++ ":"
                         ++ str (stop_minute s / 10) ++ str (stop_minute s mod 10)
                         ++ " " ++ (if stop_hour s <? 12 then "AM" else "PM")
                         ++ " (Duration: " ++ str (stop_length s) ++ " mins)"
                         ++ LF)
                      stops)) /\
    map stop_index stops = range 1 (num_stops + 1) /\
    List.length stops = Z.to_nat num_stops /\
    Forall (fun s =>
              0 <= stop_minute s <= 59 /\
              0 <= stop_hour s < 24 /\
              1 <= (stop_hour s + 11) mod 12 + 1 <= 12 /\
              ((stop_hour s + 11) mod 12 + 1) mod 12 = stop_hour s mod 12 /\
              60 * stop_hour s + stop_minute s
                = 60 * (if contains "full" (lower duration) then 10 else 11)
                  + (stop_index s - 1) * stop_length s)
           stops.
Proof.
  intros Hn. destruct (crawl_schedule_text duration num_stops Hn) as [_ Hrun].
  set (total_hours := (if contains "half" (lower duration) then 5 else 10)) in *.
  set (hour0 := (if contains "full" (lower duration) then 10 else 11)) in *.
  set (d := total_hours * 60 / num_stops) in *.
  exists (stops_from 1 hour0 0 d (Z.to_nat num_stops)).
  split; [exact Hrun|]. split.
  { rewrite stops_from_index. unfold range. do 2 f_equal. lia. }
  split; [apply stops_from_length|].
  assert (HT : 0 <= total_hours <= 10).
  { unfold total_hours. destruct (contains "half" (lower duration)); lia. }
  assert (H0 : 10 <= hour0 <= 11).
  { unfold hour0. destruct (contains "full" (lower duration)); lia. }
  assert (Hd : 0 <= d) by (unfold d; apply Z.div_pos; lia).
  assert (Hnd : num_stops * d <= total_hours * 60).
  { unfold d. apply Z.mul_div_le. lia. }
  eapply Forall_impl;
    [|apply (stops_from_clock d (Z.to_nat num_stops) 1 hour0 0); lia].
  intros s (Hmin & Hlen & Hidx & Hclock).
  assert (Hh : 10 <= stop_hour s <= 21) by nia.
  rewrite Hlen. repeat split; try lia; Z.div_mod_to_equations; lia.
Qed.

Lemma calculate_crawl_timing_clock_witness :
  exists stops : list stop,
    calculate_crawl_timing "half-day" 3 =
      Ok ((if contains "half" (lower "half-day")
             then "Half-Day Food Crawl" else "Full-Day Food Crawl")
            ++ " Schedule (" ++ str 3 ++ " stops):" ++ LF ++ LF
            ++ String.concat ""
                 (map (fun s =>
                       "Stop " ++ str (stop_index s) ++ ": "
                         ++ str ((stop_hour s + 11) mod 12 + 1) ++ ":"
                         ++ str (stop_minute s / 10) ++ str (stop_minute s mod 10)
                         ++ " " ++ (if stop_hour s <? 12 then "AM" else "PM")
                         ++ " (Duration: " ++ str (stop_length s) ++ " mins)"
                         ++ LF)
                      stops)) /\
    map stop_index stops = range 1 (3 + 1) /\
    List.length stops = Z.to_nat 3 /\
    Forall (fun s =>
              0 <= stop_minute s <= 59 /\
              0 <= stop_hour s < 24 /\
              1 <= (stop_hour s + 11) mod 12 + 1 <= 12 /\
              ((stop_hour s + 11) mod 12 + 1) mod 12 = stop_hour s mod 12 /\
              60 * stop_hour s + stop_minute s
                = 60 * (if contains "full" (lower "half-day") then 10 else 11)
                  + (stop_index s - 1) * stop_length s)
           stops.
Proof. apply (calculate_crawl_timing_clock "half-day" 3). lia. Defined.

(** C4.  [calculate_crawl_timing] raises on no duration and no number of
    stops, positive, zero or negative: it returns a string; with no stop,
    where the division fails, the string begins "Error calculating
    timing:". *)
Theorem calculate_crawl_timing_never_raises (duration : string) (num_stops : Z) :
  (exists s : string, calculate_crawl_timing duration num_stops = Ok s) /\
  (exists rest : string,
     calculate_crawl_timing duration 0
       = Ok ("Error calculating timing:" ++ rest)) /\
  (let '(_, total_hours, _) := crawl_plan duration in
   int_truediv total_hours 0 = Raise "division by zero").
Proof.
  split; [|split].
  - unfold calculate_crawl_timing, try_except.
    destruct (crawl_plan duration) as [[start_time total_hours] activity].
    match goal with |- exists s, match ?body with _ => _ end = _ =>
      destruct body as [s|msg] end; eexists; reflexivity.
  - exists " division by zero". unfold calculate_crawl_timing.
    destruct (crawl_plan duration) as [[start_time total_hours] activity].
    reflexivity.
  - destruct (crawl_plan duration) as [[start_time total_hours] activity].
    reflexivity.
Qed.

(** C10.  The schedule of a crawl of at least one stop is the header and
    exactly [num_stops] lines "Stop i: H:MM AM (Duration: d mins)", numbered
    from 1 to [num_stops], which all show the same duration [d].  This [d]
    is [int((total_hours / num_stops) * 60)] as the floats compute it, with
    5 hours for a duration with "half" and 10 otherwise, and it is the
    integer quotient of the minutes of the crawl by [num_stops].  All the
    stops together take at most the minutes of the crawl, and less exactly
    when [num_stops] does not divide them, which happens: 7 stops in 5
    hours take 294 minutes of 300. *)
Theorem calculate_crawl_timing_even_split (duration : string) (num_stops : Z) :
  1 <= num_stops ->
  exists (d : Z) (stops : list stop),
    bind (int_truediv (if contains "half" (lower duration) then 5 else 10) num_stops)
         (fun time_per_stop =>
            bind (float_mul_int time_per_stop 60) int_of_float)
      = Ok d /\
    d = (if contains "half" (lower duration) then 5 else 10) * 60 / num_stops /\
    calculate_crawl_timing duration num_stops =
      Ok ((if contains "half" (lower duration)
             then "Half-Day Food Crawl" else "Full-Day Food Crawl")
            ++ " Schedule (" ++ str num_stops ++ " stops):" ++ LF ++ LF
            ++ String.concat ""
                 (map (fun s =>
                       "Stop " ++ str (stop_index s) ++ ": "
                         ++ str ((stop_hour s + 11) mod 12 + 1) ++ ":"
                         ++ str (stop_minute s / 10) ++ str (stop_minute s mod 10)
                         ++ " " ++ (if stop_hour s <? 12 then "AM" else "PM")
                         ++ " (Duration: " ++ str (stop_length s) ++ " mins)"
                         ++ LF)
                      stops)) /\
    map stop_index stops = range 1 (num_stops + 1) /\
    Z.of_nat (List.length stops) = num_stops /\
    Forall (fun s => stop_length s = d) stops /\
    0 <= d /\
    num_stops * d <= (if contains "half" (lower duration) then 5 else 10) * 60 /\
    (num_stops * d < (if contains "half" (lower duration) then 5 else 10) * 60 <->
     ((if contains "half" (lower duration) then 5 else 10) * 60) mod num_stops <> 0) /\
    (exists n d',
       bind (int_truediv 5 n)
            (fun time_per_stop =>
            bind (float_mul_int time_per_stop 60) int_of_float)
         = Ok d' /\
       1 <= n /\ n * d' < 5 * 60).
Proof.
  intros Hn. destruct (crawl_schedule_text duration num_stops Hn) as [Hdur Hrun].
  set (total_hours := (if contains "half" (lower duration) then 5 else 10)) in *.
  set (hour0 := (if contains "full" (lower duration) then 10 else 11)) in *.
  set (d := total_hours * 60 / num_stops) in *.
  exists d, (stops_from 1 hour0 0 d (Z.to_nat num_stops)).
  assert (HT : 0 <= total_hours).
  { unfold total_hours. destruct (contains "half" (lower duration)); lia. }
  assert (Hd : 0 <= d) by (unfold d; apply Z.div_pos; lia).
  split; [exact Hdur|]. split; [reflexivity|]. split; [exact Hrun|]. split.
  { rewrite stops_from_index. unfold range. do 2 f_equal. lia. }
  split; [rewrite stops_from_length; lia|]. split.
  { eapply Forall_impl;
      [|apply (stops_from_clock d (Z.to_nat num_stops) 1 hour0 0); lia].
    intros s (_ & H & _). exact H. }
  split; [exact Hd|].
  pose proof (Z.div_mod (total_hours * 60) num_stops ltac:(lia)) as DM.
  pose proof (Z.mod_pos_bound (total_hours * 60) num_stops ltac:(lia)) as MB.
  fold d in DM. split; [lia|]. split; [lia|].
  exists 7, 42. split; [reflexivity | lia].
Qed.

Lemma calculate_crawl_timing_even_split_witness :
  exists (d : Z) (stops : list stop),
    bind (int_truediv (if contains "half" (lower "full-day") then 5 else 10) 7)
         (fun time_per_stop =>
            bind (float_mul_int time_per_stop 60) int_of_float)
      = Ok d /\
    d = (if contains "half" (lower "full-day") then 5 else 10) * 60 / 7 /\
    calculate_crawl_timing "full-day" 7 =
      Ok ((if contains "half" (lower "full-day")
             then "Half-Day Food Crawl" else "Full-Day Food Crawl")
            ++ " Schedule (" ++ str 7 ++ " stops):" ++ LF ++ LF
            ++ String.concat ""
                 (map (fun s =>
                       "Stop " ++ str (stop_index s) ++ ": "
                         ++ str ((stop_hour s + 11) mod 12 + 1) ++ ":"
                         ++ str (stop_minute s / 10) ++ str (stop_minute s mod 10)
                         ++ " " ++ (if stop_hour s <? 12 then "AM" else "PM")
                         ++ " (Duration: " ++ str (stop_length s) ++ " mins)"
                         ++ LF)
                      stops)) /\
    map stop_index stops = range 1 (7 + 1) /\
    Z.of_nat (List.length stops) = 7 /\
    Forall (fun s => stop_length s = d) stops /\
    0 <= d /\
    7 * d <= (if contains "half" (lower "full-day") then 5 else 10) * 60 /\
    (7 * d < (if contains "half" (lower "full-day") then 5 else 10) * 60 <->
     ((if contains "half" (lower "full-day") then 5 else 10) * 60) mod 7 <> 0) /\
    (exists n d',
       bind (int_truediv 5 n)
            (fun time_per_stop =>
            bind (float_mul_int time_per_stop 60) int_of_float)
         = Ok d' /\
       1 <= n /\ n * d' < 5 * 60).
Proof. apply (calculate_crawl_timing_even_split "full-day" 7). lia. Defined.

End CalculateCrawlTiming.

(** ** Properties of chat *)

Section Chat.
Import Py Agent.

Lemma last_n_suffix {A : Type} (k : nat) (l : list A) :
  (k <= List.length l)%nat ->
  l = (firstn (List.length l - k) l ++ last_n k l)%list /\
  List.length (last_n k l) = k.
Proof.
  intros Hk. unfold last_n. split.
  - symmetry. apply firstn_skipn.
  - rewrite length_skipn. lia.
Qed.

Lemma keep_last_20_length (h : list entry) :
  (List.length (keep_last_20 h) <= 20)%nat.
Proof.
  unfold keep_last_20. destruct (Nat.ltb_spec 20 (List.length h)) as [Hlt|Hle].
  - rewrite (proj2 (last_n_suffix 20 h ltac:(lia))). lia.
  - exact Hle.
Qed.

Lemma perform_capped (h : option (list entry)) (a : action) :
  (history_length h <= 20)%nat -> (history_length (perform h a) <= 20)%nat.
Proof.
  intros Hh. destruct a as [create_agent user_input agent_executor|]; [|simpl; lia].
  unfold perform, chat.
  destruct (executor_or_create create_agent agent_executor) as [exec|msg]; cbn [snd].
  - apply keep_last_20_length.
  - destruct h; simpl in *; lia.
Qed.

Lemma fold_perform_capped (actions : list action) (h : option (list entry)) :
  (history_length h <= 20)%nat ->
  (history_length (fold_left perform actions h) <= 20)%nat.
Proof.
  revert h. induction actions as [|a actions IH]; intros h Hh; [exact Hh|].
  simpl. apply IH, perform_capped, Hh.
Qed.

(** C2.  Whatever the program has done before (calls of [chat], clearings
    of the history), after a call of [chat] the global [chat_history] has at
    most 20 entries; and when the call has an executor and the history it
    has updated has more than 20 entries, what it keeps is the last 20 of
    them, in their order. *)
Theorem chat_history_capped (actions : list action)
    (create_agent : result executor) (user_input : string)
    (agent_executor : option executor) :
  let before := history_after actions in
  let after := snd (chat create_agent user_input agent_executor before) in
  (history_length after <= 20)%nat /\
  forall exec : executor,
    executor_or_create create_agent agent_executor = Ok exec ->
    let h := history_or_empty before in
    let updated :=
      update_history h user_input
        (agent_output (exec user_input (format_history h))) in
    (20 < List.length updated)%nat ->
    exists dropped retained : list entry,
      updated = (dropped ++ retained)%list /\
      List.length retained = 20%nat /\
      after = Some retained.
Proof.
  intros before after. split.
  - apply (perform_capped before (Chat create_agent user_input agent_executor)).
    apply fold_perform_capped. simpl. lia.
  - intros exec Hexec h updated Hlong.
    exists (firstn (List.length updated - 20) updated), (last_n 20 updated).
    destruct (last_n_suffix 20 updated ltac:(lia)) as [Hsplit Hlen].
    split; [exact Hsplit|]. split; [exact Hlen|].
    unfold after, chat. rewrite Hexec. cbn [snd].
    fold h. fold updated. unfold keep_last_20.
    destruct (Nat.ltb_spec 20 (List.length updated)); [reflexivity | lia].
Qed.

Lemma chat_history_capped_witness :
  let exec := fun (_ : string) (_ : list message) =>
                Ok (RDict [("output", VStr "Try the thali.")]) in
  let actions := repeat (Chat (Raise "") "hello" (Some exec)) 10 in
  let h := history_or_empty (history_after actions) in
  let updated :=
    update_history h "more"
      (agent_output (exec "more" (format_history h))) in
  exists dropped retained : list entry,
    updated = (dropped ++ retained)%list /\
    List.length retained = 20%nat /\
    snd (chat (Raise "") "more" (Some exec) (history_after actions))
      = Some retained.
Proof.
  intros exec actions.
  apply (proj2 (chat_history_capped actions (Raise "") "more" (Some exec))
               exec eq_refl).
  vm_compute. lia.
Defined.

Lemma agent_output_nonempty (invoked : result response) :
  exists s : string, agent_output invoked = VStr s /\ s <> "".
Proof.
  assert (T : forall v, truthy v = true -> is_str v = true ->
                        exists s, v = VStr s /\ s <> "").
  { intros [|s|t shown]; simpl; try discriminate. intros H _. exists s.
    split; [reflexivity|]. intros ->. discriminate. }
  destruct invoked as [response|e]; unfold agent_output.
  - match goal with |- context [if negb (truthy ?o) || negb (is_str ?o) then _ else _] =>
      destruct (truthy o) eqn:Et; destruct (is_str o) eqn:Es; cbn [negb orb];
      try (eexists; split; [reflexivity | discriminate]);
      apply T; assumption
    end.
  - eexists. split; [reflexivity | discriminate].
Qed.

(** C5.  [chat] returns a string that is not empty, whatever the executor
    answers or raises, and also when no executor can be made.  When the
    executor answers [None], a dict without the key 'output', a dict whose
    'output' is empty (false), or a dict whose 'output' is not a string,
    what [chat] returns is a fixed sentence. *)
Theorem chat_returns_nonempty_string (create_agent : result executor)
    (user_input : string) (agent_executor : option executor)
    (chat_history : option (list entry)) :
  let returned := fst (chat create_agent user_input agent_executor chat_history) in
  (exists s : string, returned = VStr s /\ s <> "") /\
  forall (exec : executor) (response : response),
    executor_or_create create_agent agent_executor = Ok exec ->
    exec user_input (format_history (history_or_empty chat_history))
      = Ok response ->
    (response = RNone ->
     returned = VStr "No response was generated. Please try again.") /\
    (forall items, response = RDict items ->
       let output := dict_get items "output" (VStr "") in
       ((forall v, ~ In ("output", v) items) -> output = VStr "") /\
       (truthy output = false ->
        returned =
          VStr "I didn't get a proper response. Could you rephrase your question?") /\
       (truthy output = true -> is_str output = false ->
        returned =
          VStr "I'm having trouble understanding. Could you rephrase your question?")).
Proof.
  intros returned. split.
  - unfold returned, chat.
    destruct (executor_or_create create_agent agent_executor) as [exec|msg];
      cbn [fst].
    + destruct (agent_output_nonempty
                  (exec user_input (format_history (history_or_empty chat_history))))
        as (s & Hs & Hne).
      rewrite Hs. exists s. split; [|exact Hne].
      simpl. destruct (String.eqb_spec s ""); [contradiction | reflexivity].
    + eexists. split; [reflexivity | discriminate].
  - intros exec response Hexec Hrun. unfold returned, chat.
    rewrite Hexec, Hrun. cbn [fst]. split.
    + intros ->. reflexivity.
    + intros items ->. cbn zeta. split; [|split].
      * clear Hrun. induction items as [|[k v] items IH]; intros Hnot; [reflexivity|].
        simpl. destruct (String.eqb_spec k "output") as [->|Hk].
        -- exfalso. apply (Hnot v). left. reflexivity.
        -- apply IH. intros w Hw. apply (Hnot w). right. exact Hw.
      * intros Hf. unfold agent_output. rewrite Hf. reflexivity.
      * intros Ht Hs. unfold agent_output. rewrite Ht. cbn [negb].
        rewrite Ht, Hs. reflexivity.
Qed.

Lemma chat_returns_nonempty_string_witness :
  let exec := fun (_ : string) (_ : list message) =>
                Ok (RDict [("output", VOther true "42")]) in
  fst (chat (Raise "") "hello" (Some exec) None)
    = VStr "I'm having trouble understanding. Could you rephrase your question?".
Proof.
  intros exec.
  apply (proj2 (proj2 (proj2
           (proj2 (chat_returns_nonempty_string (Raise "") "hello" (Some exec) None)
              exec _ eq_refl eq_refl)
           _ eq_refl)));
    reflexivity.
Defined.

(** C6.  When [invoke] raises an exception, [chat] returns the sentence
    "I encountered an error: ", the text of the exception, and
    ". Could you please rephrase your question?". *)
Theorem chat_executor_error (create_agent : result executor)
    (user_input : string) (agent_executor : option executor)
    (chat_history : option (list entry)) (exec : executor) (e : string) :
  executor_or_create create_agent agent_executor = Ok exec ->
  exec user_input (format_history (history_or_empty chat_history)) = Raise e ->
  fst (chat create_agent user_input agent_executor chat_history)
    = VStr ("I encountered an error: " ++ e
              ++ ". Could you please rephrase your question?").
Proof.
  intros Hexec Hrun. unfold chat. rewrite Hexec, Hrun. reflexivity.
Qed.

Lemma chat_executor_error_witness :
  fst (chat (Ok (fun _ _ => Raise "rate limit")) "hello" None (Some []))
    = VStr ("I encountered an error: " ++ "rate limit"
              ++ ". Could you please rephrase your question?").
Proof.
  apply (chat_executor_error (Ok (fun _ _ => Raise "rate limit")) "hello" None
           (Some []) (fun _ _ => Raise "rate limit") "rate limit");
    reflexivity.
Defined.

End Chat.

(** ** Properties of get_cuisine_recommendations *)

Section CuisineRecommendations.
Import Py Agent StringFacts.

Lemma prefix_spec (p s : string) :
  String.prefix p s = true <-> exists rest, s = p ++ rest.
Proof.
  revert s. induction p as [|a p IH]; intros s.
  - destruct s; simpl; split; eauto.
  - destruct s as [|b s]; simpl.
    + split; [discriminate | intros [rest H]; discriminate].
    + destruct (ascii_dec a b) as [->|Hab].
      * rewrite IH. split; intros [rest H]; exists rest; congruence.
      * split; [discriminate | intros [rest H]; congruence].
Qed.

(** [contains sub s] holds exactly when [sub] occurs in [s]. *)
Lemma contains_spec (sub s : string) :
  contains sub s = true <-> exists before rest, s = before ++ sub ++ rest.
Proof.
  induction s as [|c s IH]; cbn [contains].
  - destruct (String.prefix sub "") eqn:E.
    + split; [intros _|reflexivity].
      apply prefix_spec in E. destruct E as [rest E]. exists "", rest. exact E.
    + split; [discriminate|]. intros (before & rest & H).
      destruct before; [|discriminate]. simpl in H.
      assert (String.prefix sub "" = true) by (apply prefix_spec; eauto).
      congruence.
  - destruct (String.prefix sub (String c s)) eqn:E.
    + split; [intros _|reflexivity].
      apply prefix_spec in E. destruct E as [rest E]. exists "", rest. exact E.
    + rewrite IH. split.
      * intros (before & rest & H). exists (String c before), rest.
        simpl. now rewrite H.
      * intros (before & rest & H). destruct before as [|c' before].
        -- simpl in H.
           assert (String.prefix sub (String c s) = true)
             by (apply prefix_spec; eauto).
           congruence.
        -- simpl in H. injection H as _ H. eauto.
Qed.

Lemma first_key_in_split (data : list (string * string)) (l : string)
    (before after : list (string * string)) (key description : string) :
  data = (before ++ (key, description) :: after)%list ->
  contains key l = true ->
  (forall k d, In (k, d) before -> contains k l = false) ->
  first_key_in (map fst data) l = Some key /\
  dict_get data key "" = description.
Proof.
  intros -> Hkey. induction before as [|[k d] before IH]; intros Hbefore.
  - simpl. rewrite Hkey, String.eqb_refl. auto.
  - assert (Hk : contains k l = false) by (apply (Hbefore k d); left; reflexivity).
    simpl. rewrite Hk.
    destruct (String.eqb_spec k key) as [->|_]; [congruence|].
    apply IH. intros k' d' Hin. apply (Hbefore k' d'). right. exact Hin.
Qed.

Lemma first_key_in_none (data : list (string * string)) (l : string) :
  (forall k d, In (k, d) data -> contains k l = false) ->
  first_key_in (map fst data) l = None.
Proof.
  induction data as [|[k d] data IH]; intros H; [reflexivity|].
  simpl. rewrite (H k d) by (left; reflexivity).
  apply IH. intros k' d' Hin. apply (H k' d'). right. exact Hin.
Qed.

(** C8.  [cuisine_data] has nine keys.  When the lowercase form of the
    cuisine contains a key, the answer is "Recommendations for ", the
    cuisine, ":", a line feed and the description of the first such key in
    the order of the declaration; when it contains no key, the answer is
    the general sentence. *)
Theorem get_cuisine_recommendations_first_match (cuisine_type : string) :
  List.length cuisine_data = 9%nat /\
  (forall (before after : list (string * string)) (key description : string),
     cuisine_data = (before ++ (key, description) :: after)%list ->
     contains key (lower cuisine_type) = true ->
     (forall k d, In (k, d) before -> contains k (lower cuisine_type) = false) ->
     get_cuisine_recommendations cuisine_type
       = "Recommendations for " ++ cuisine_type ++ ":" ++ LF ++ description) /\
  ((forall k d, In (k, d) cuisine_data ->
                contains k (lower cuisine_type) = false) ->
   get_cuisine_recommendations cuisine_type
     = "General recommendations for " ++ cuisine_type
         ++ ": Explore local specialties, ask for chef's recommendations, and try signature dishes. Budget accordingly and check reviews online.").
Proof.
  split; [reflexivity|]. split.
  - intros before after key description Hdata Hkey Hbefore.
    destruct (first_key_in_split cuisine_data (lower cuisine_type)
                before after key description Hdata Hkey Hbefore) as [Hfirst Hget].
    unfold get_cuisine_recommendations. rewrite Hfirst, Hget. reflexivity.
  - intros Hnone. unfold get_cuisine_recommendations.
    rewrite (first_key_in_none cuisine_data (lower cuisine_type) Hnone).
    reflexivity.
Qed.

Lemma get_cuisine_recommendations_first_match_witness :
  get_cuisine_recommendations "Thai Street Food"
    = "Recommendations for " ++ "Thai Street Food" ++ ":" ++ LF
        ++ "Popular dishes: Pani Puri, Vada Pav, Pav Bhaji, Chaat, Momos, Rolls, Samosas. Best time: Evening (5 PM - 9 PM). Budget: ‚Çπ50-200 per person."
  /\ get_cuisine_recommendations "Korean BBQ"
    = "General recommendations for " ++ "Korean BBQ"
         ++ ": Explore local specialties, ask for chef's recommendations, and try signature dishes. Budget accordingly and check reviews online.".
Proof.
  pose proof (get_cuisine_recommendations_first_match "Thai Street Food") as H1.
  pose proof (get_cuisine_recommendations_first_match "Korean BBQ") as H2.
  split.
  - apply (proj1 (proj2 H1) [] (tl cuisine_data) "street food");
      [reflexivity | reflexivity | intros k d []].
  - apply (proj2 (proj2 H2)). intros k d Hin. simpl in Hin.
    repeat (destruct Hin as [[= <- <-]|Hin]; [reflexivity|]). destruct Hin.
Defined.

End CuisineRecommendations.

(** ** Properties of search_restaurants *)

Section SearchRestaurants.
Import Py Agent StringFacts.

Lemma take_spec (n : nat) (s : string) :
  (String.length (take n s) <= n)%nat /\ exists rest, s = take n s ++ rest.
Proof.
  revert s. induction n as [|n IH]; intros s.
  - simpl. split; [lia | exists s; reflexivity].
  - destruct s as [|c s]; simpl.
    + split; [lia | exists ""; reflexivity].
    + destruct (IH s) as [Hlen [rest Hrest]]. split; [lia|].
      exists rest. now rewrite <- Hrest.
Qed.

Lemma take_all (n : nat) (s : string) :
  (String.length s <= n)%nat -> take n s = s.
Proof.
  revert s. induction n as [|n IH]; intros [|c s]; simpl; intros H;
    try reflexivity; try lia.
  now rewrite IH by lia.
Qed.

(** The dicts among numbered elements, with their numbers. *)
Lemma fold_format_result (entries : list (Z * search_item)) (acc : string) :
  fold_left format_result entries acc =
    acc ++ String.concat ""
             (map (fun e => format_result "" (fst e, ItemDict (snd e)))
                  (flat_map (fun e => match snd e with
                                      | ItemDict fields => [(fst e, fields)]
                                      | ItemOther => []
                                      end) entries)).
Proof.
  revert acc. induction entries as [|[i item] entries IH]; intros acc.
  - simpl. now rewrite append_empty_r.
  - cbn [fold_left flat_map]. rewrite IH. destruct item as [fields|].
    + cbn [snd fst app map]. rewrite concat_empty_cons.
      cbn [format_result]. rewrite !append_assoc. reflexivity.
    + reflexivity.
Qed.

Lemma enumerate_nth {A : Type} (xs : list A) (start i : Z) (x : A) :
  In (i, x) (enumerate xs start) <->
  start <= i /\ nth_error xs (Z.to_nat (i - start)) = Some x.
Proof.
  revert start. induction xs as [|y xs IH]; intros start; simpl.
  - split; [tauto|]. intros [_ H]. destruct (Z.to_nat (i - start)); discriminate.
  - rewrite IH. split.
    + intros [[= <- <-]|[Hle Hnth]].
      * rewrite Z.sub_diag. simpl. split; [lia | reflexivity].
      * split; [lia|].
        replace (Z.to_nat (i - start)) with (S (Z.to_nat (i - (start + 1)))) by lia.
        exact Hnth.
    + intros [Hle Hnth]. destruct (Z.eq_dec i start) as [->|Hne].
      * rewrite Z.sub_diag in Hnth. simpl in Hnth. left. congruence.
      * right. split; [lia|].
        replace (Z.to_nat (i - start)) with (S (Z.to_nat (i - (start + 1))))
          in Hnth by lia.
        exact Hnth.
Qed.

Lemma enumerate_length {A : Type} (xs : list A) (start : Z) :
  List.length (enumerate xs start) = List.length xs.
Proof. revert start. induction xs; intros; simpl; [|rewrite IHxs]; reflexivity. Qed.

Lemma numbered_dicts_length (entries : list (Z * search_item)) :
  (List.length
     (flat_map (fun e => match snd e with
                         | ItemDict fields => [(fst e, fields)]
                         | ItemOther => []
                         end) entries)
   <= List.length entries)%nat.
Proof.
  induction entries as [|[i [fields|]] entries IH]; simpl; lia.
Qed.

(** C7.  [search_restaurants] asks the search tool for exactly "best
    {cuisine} restaurants in {city} {budget} budget popular food places":
    its answer depends on the tool by what the tool gives for this query
    alone.  When the tool gives a list that is not empty, the answer is a
    header and one numbered block for each dict among the first five
    elements of the list, in their order and with their positions, at most
    five blocks, each with the first 200 characters of the 'content' of its
    dict.  When the tool gives an empty list or another false value, the
    answer is the sentence "No specific results found, ...". *)
Theorem search_restaurants_results (tavily : string -> result search_results)
    (city cuisine budget : string) :
  let query := "best " ++ cuisine ++ " restaurants in " ++ city ++ " "
                 ++ budget ++ " budget popular food places" in
  (forall other : string -> result search_results,
     other query = tavily query ->
     search_restaurants other city cuisine budget
       = search_restaurants tavily city cuisine budget) /\
  (forall items : list search_item,
     tavily query = Ok (ResList items) -> items <> [] ->
     exists shown : list (Z * list (string * string)),
       search_restaurants tavily city cuisine budget =
         Ok (("Restaurant search results for " ++ cuisine ++ " in " ++ city
                ++ " (" ++ budget ++ " budget):" ++ LF ++ LF)
             ++ String.concat ""
                  (map (fun e =>
                          str (fst e) ++ ". "
                            ++ dict_get (snd e) "title" "Restaurant" ++ LF
                            ++ "   " ++ take 200 (dict_get (snd e) "content" "")
                            ++ "..." ++ LF
                            ++ "   Source: " ++ dict_get (snd e) "url" "" ++ LF
                            ++ LF)
                       shown)) /\
       shown = flat_map (fun e => match snd e with
                                  | ItemDict fields => [(fst e, fields)]
                                  | ItemOther => []
                                  end) (enumerate (firstn 5 items) 1) /\
       (List.length shown <= 5)%nat /\
       (forall i fields,
          In (i, fields) shown <->
          1 <= i <= 5 /\
          nth_error items (Z.to_nat (i - 1)) = Some (ItemDict fields)) /\
       (forall fields,
          let content := dict_get fields "content" "" in
          (String.length (take 200 content) <= 200)%nat /\
          exists rest, content = take 200 content ++ rest)) /\
  (forall results : search_results,
     tavily query = Ok results -> results_truthy results = false ->
     search_restaurants tavily city cuisine budget =
       Ok ("No specific results found, but " ++ city ++ " is known for great "
             ++ cuisine ++ " options!")).
Proof.
  intros query. split; [|split].
  - intros other Hsame. unfold search_restaurants. fold query.
    rewrite Hsame. reflexivity.
  - intros items Hrun Hne.
    eexists. split; [|split; [reflexivity|]].
    + unfold search_restaurants. fold query. rewrite Hrun.
      destruct items as [|item items]; [contradiction|].
      cbn [bind results_truthy try_except]. rewrite fold_format_result.
      reflexivity.
    + split; [|split].
      * etransitivity; [apply numbered_dicts_length|].
        rewrite enumerate_length. apply firstn_le_length.
      * intros i fields. rewrite in_flat_map. split.
        -- intros ([j item] & Hin & Hshown). cbn [snd fst] in Hshown.
           destruct item as [fields'|]; [|contradiction].
           destruct Hshown as [[= <- <-]|[]].
           apply enumerate_nth in Hin. destruct Hin as [Hle Hnth].
           rewrite nth_error_firstn in Hnth.
           destruct (Nat.ltb_spec (Z.to_nat (j - 1)) 5); [|discriminate].
           split; [lia | exact Hnth].
        -- intros [Hi Hnth]. exists (i, ItemDict fields). split; [|left; reflexivity].
           apply enumerate_nth. split; [lia|].
           rewrite nth_error_firstn.
           destruct (Nat.ltb_spec (Z.to_nat (i - 1)) 5); [exact Hnth | lia].
      * intros fields content. apply take_spec.
  - intros results Hrun Hfalse. unfold search_restaurants. fold query.
    rewrite Hrun. cbn [bind]. rewrite Hfalse. reflexivity.
Qed.

Lemma search_restaurants_results_witness :
  let tavily := fun _ : string =>
                  Ok (ResList [ItemDict [("title", "Chaat Corner");
                                         ("content", "Pani puri and more.");
                                         ("url", "https://example.org/chaat")];
                               ItemOther]) in
  search_restaurants tavily "Pune" "street food" "low" =
    Ok ("Restaurant search results for street food in Pune (low budget):"
          ++ LF ++ LF
          ++ "1. Chaat Corner" ++ LF
          ++ "   Pani puri and more...." ++ LF
          ++ "   Source: https://example.org/chaat" ++ LF ++ LF).
Proof.
  intros tavily.
  destruct (proj1 (proj2 (search_restaurants_results tavily "Pune" "street food" "low"))
              _ eq_refl ltac:(discriminate)) as (shown & Hrun & -> & _).
  rewrite Hrun. reflexivity.
Defined.

End SearchRestaurants.

(** ** Properties of render_chat_html *)

Section RenderChatHtml.
Import Py App StringFacts.

Lemma replace_nonempty_cons (c : ascii) (old' new : string) (b : ascii) (s' : string) :
  replace_nonempty c old' new (String b s') =
    match strip_prefix (String c old') (String b s') with
    | Some rest => new ++ replace_nonempty c old' new rest
    | None => String b (replace_nonempty c old' new s')
    end.
Proof.
  remember (String b s') as s eqn:Es.
  funelim (replace_nonempty c old' new s); try discriminate;
    match goal with E : String _ _ = String _ _ |- _ => injection E as <- <- end;
    match goal with E : strip_prefix _ _ = _ |- _ => rewrite E end;
    reflexivity.
Qed.

(** Replacing a single character is done character by character. *)
Lemma replace_char (c : ascii) (new s : string) :
  replace (String c "") new s =
    String.concat ""
      (map (fun ch => if Ascii.eqb c ch then new else String ch "")
           (list_ascii_of_string s)).
Proof.
  unfold replace.
  induction s as [|b s IH]; [reflexivity|].
  rewrite replace_nonempty_cons.
  cbn [list_ascii_of_string map strip_prefix]. rewrite concat_empty_cons, <- IH.
  destruct (Ascii.eqb c b); reflexivity.
Qed.

Lemma fold_render_msg (time_time : Z) (strftime_HM : Z -> string)
    (messages : list msg) (html_parts : list string) :
  fold_left (render_msg time_time strftime_HM) messages html_parts =
    (html_parts
       ++ flat_map (render_msg time_time strftime_HM []) messages)%list.
Proof.
  revert html_parts. induction messages as [|m messages IH]; intros html_parts.
  - simpl. now rewrite app_nil_r.
  - cbn [fold_left flat_map]. rewrite IH, app_assoc. f_equal.
    unfold render_msg. destruct (String.eqb (get (role m) "user") "user");
      reflexivity.
Qed.

(** C9.  For a list of messages that is not empty, [render_chat_html] joins
    by line feeds the opening of the chat box, one bubble per message in
    the order of the messages, and the closing.  The bubble of a message
    whose role is "user" (or that has no role) is a user bubble, that of
    any other role an assistant bubble; each holds the content of its
    message in which every line feed is replaced by "<br>".  For no
    message, the welcome text is produced. *)
Theorem render_chat_html_bubbles (time_time : Z) (strftime_HM : Z -> string)
    (messages : list msg) :
  (messages <> [] ->
   exists bubbles : list string,
     render_chat_html time_time strftime_HM messages =
       join LF (["<div id='chatbox'>"] ++ bubbles ++ ["</div>"]) /\
     Forall2
       (fun m bubble =>
          let safe_content :=
            String.concat ""
              (map (fun ch => if Ascii.eqb "010" ch then "<br>" else String ch "")
                   (list_ascii_of_string (get (content m) ""))) in
          let ts_str := strftime_HM (get (ts m) time_time) in
          bubble =
            if String.eqb (get (role m) "user") "user"
            then "<div style='display:flex; justify-content:flex-end;'>"
                   ++ "<div class='msg-user'>" ++ safe_content
                   ++ "<div class='meta'>You • " ++ ts_str
                   ++ "</div></div></div>"
            else "<div style='display:flex; justify-content:flex-start;'>"
                   ++ "<div class='msg-assistant'>" ++ safe_content
                   ++ "<div class='meta-assistant'>AI Chef • " ++ ts_str
                   ++ "</div></div></div>")
       messages bubbles) /\
  render_chat_html time_time strftime_HM [] =
    join LF
      [ "<div id='chatbox'>";
        "<div style='text-align:center; padding:60px 20px; color:#718096;'>";
        "<div style='font-size:48px; margin-bottom:20px;'>🍽️</div>";
        "<div style='font-size:18px; font-weight:600; margin-bottom:10px;'>Welcome to Restaurant Crawl Planner!</div>";
        "<div style='font-size:14px;'>Tell me your city, cuisine preference, and budget to get started.</div>";
        "<div style='font-size:13px; margin-top:15px; color:#a0aec0;'>Example: 'Plan a half-day street food crawl in Mumbai with low budget'</div>";
        "</div>";
        "</div>" ].
Proof.
  split; [|reflexivity].
  intros Hne.
  exists (flat_map (render_msg time_time strftime_HM []) messages). split.
  - destruct messages as [|m messages]; [contradiction|].
    unfold render_chat_html. rewrite fold_render_msg.
    rewrite <- app_assoc. reflexivity.
  - clear Hne. induction messages as [|m messages IH]; [constructor|].
    cbn [flat_map]. unfold render_msg at 1. unfold LF.
    rewrite replace_char.
    destruct (String.eqb (get (role m) "user") "user") eqn:E;
      cbn [app]; constructor; try exact IH; cbn zeta; rewrite E; reflexivity.
Qed.

Lemma render_chat_html_bubbles_witness :
  let messages :=
    [ {| role := Some "user"; content := Some ("two" ++ LF ++ "lines");
         ts := Some 0 |};
      {| role := Some "assistant"; content := Some "ok"; ts := None |} ] in
  exists b1 b2 : string,
    render_chat_html 60 (fun _ => "12:00") messages =
      join LF (["<div id='chatbox'>"] ++ [b1; b2] ++ ["</div>"]) /\
    b1 = "<div style='display:flex; justify-content:flex-end;'><div class='msg-user'>two<br>lines<div class='meta'>You • 12:00</div></div></div>" /\
    b2 = "<div style='display:flex; justify-content:flex-start;'><div class='msg-assistant'>ok<div class='meta-assistant'>AI Chef • 12:00</div></div></div>".
Proof.
  intros messages.
  destruct (proj1 (render_chat_html_bubbles 60 (fun _ => "12:00") messages)
              ltac:(discriminate)) as (bubbles & Hrun & Hall).
  inversion Hall as [|m1 b1 ms1 bs1 H1 Hall1]; subst.
  inversion Hall1 as [|m2 b2 ms2 bs2 H2 Hall2]; subst.
  inversion Hall2; subst.
  exists b1, b2. split; [exact Hrun|]. split; [exact H1 | exact H2].
Defined.

End RenderChatHtml.

(** ** Further properties of calculate_crawl_timing *)

Module CrawlEdgeFacts.
Import Py Agent StringFacts CrawlFacts FloatFacts.

(** The quotient of two integers of any signs, rounded, is zero or finite
    when the quotient of their absolute values is at most [K * 2 ^ eb]. *)
Lemma SFdiv_signed_below (sa sb : bool) (a b : positive) (K eb : Z) :
  0 < K < 2 ^ prec -> emin prec emax <= eb <= 0 ->
  fexp prec emax (Z.pos (digits2_pos a) - Z.pos (digits2_pos b)) <= eb ->
  Z.pos a * 2 ^ (- eb) <= K * Z.pos b ->
  below (SFdiv prec emax (S754_finite sa a 0) (S754_finite sb b 0)) K eb.
Proof.
  intros HK Heb Hfexp Hquot. unfold SFdiv, SFdiv_core_binary.
  cbn [Zdigits2]. rewrite !Z.add_0_r, Z.sub_diag.
  set (e' := Z.min _ 0).
  assert (He' : e' <= eb /\ e' <= 0) by (unfold e'; lia).
  assert (Hm' : match 0 - e' with
                | 0 => Z.pos a
                | Z.pos _ => Z.shiftl (Z.pos a) (0 - e')
                | Z.neg _ => 0
                end = Z.pos a * 2 ^ (- e')).
  { destruct (0 - e') as [|p|p] eqn:E; [| |lia].
    - replace (- e') with 0 by lia. lia.
    - rewrite Z.shiftl_mul_pow2 by lia. f_equal. f_equal. lia. }
  rewrite Hm'.
  pose proof (Z_div_mod (Z.pos a * 2 ^ (- e')) (Z.pos b) eq_refl) as DM.
  destruct (Z.div_eucl (Z.pos a * 2 ^ (- e')) (Z.pos b)) as [q r].
  destruct DM as [Dq Dr].
  assert (Hp : 0 < 2 ^ (eb - e')) by (apply Z.pow_pos_nonneg; lia).
  assert (Hsplit : 2 ^ (- e') = 2 ^ (- eb) * 2 ^ (eb - e')).
  { rewrite <- Z.pow_add_r by lia. f_equal. lia. }
  assert (Hup : Z.pos a * 2 ^ (- e') <= K * 2 ^ (eb - e') * Z.pos b).
  { rewrite Hsplit. nia. }
  assert (Hq0 : 0 <= q) by nia.
  apply binary_round_aux_below;
    [exact Hq0 | exact HK | split; [tauto | unfold emax, prec; lia] | lia |].
  destruct (Z.eq_dec q (K * 2 ^ (eb - e'))) as [Heq|Hne].
  - right. split; [exact Heq|].
    assert (r = 0) by nia. subst r. apply new_location_zero.
  - left. nia.
Qed.

(** The division of the hours of the crawl by a number of stops other than
    zero gives a float: it does not overflow. *)
Lemma int_truediv_hours (total_hours n : Z) :
  total_hours = 5 \/ total_hours = 10 -> n <> 0 ->
  exists x, int_truediv total_hours n = Ok x.
Proof.
  intros HT Hn. unfold int_truediv.
  destruct (Z.eqb_spec n 0) as [|_]; [contradiction|].
  assert (B : below (SFdiv prec emax (exact_of_int total_hours) (exact_of_int n)) 10 0).
  { destruct n as [|b|b]; [contradiction| |];
      destruct HT as [-> | ->]; cbn [exact_of_int];
      apply SFdiv_signed_below;
      try (unfold prec; change (2 ^ 53) with 9007199254740992; lia);
      try (unfold prec, emin, emax; lia);
      try (unfold fexp, prec, emin, emax; simpl digits2_pos; lia). }
  destruct (SFdiv prec emax (exact_of_int total_hours) (exact_of_int n))
    as [s|s| |s m e]; cbn [below] in B; try tauto; eexists; reflexivity.
Qed.

End CrawlEdgeFacts.

Section CalculateCrawlTimingEdges.
Import Py Agent StringFacts CrawlFacts CrawlEdgeFacts.

(** X1.  [calculate_crawl_timing] answers with its error text for no stop
    only: for every other number of stops, positive or negative, the
    answer begins with the header of the schedule. *)
Theorem calculate_crawl_timing_error_only_at_zero (duration : string)
    (num_stops : Z) :
  (num_stops = 0 ->
   calculate_crawl_timing duration num_stops
     = Ok "Error calculating timing: division by zero") /\
  (num_stops <> 0 ->
   exists rest : string,
     calculate_crawl_timing duration num_stops
       = Ok (schedule_header (snd (crawl_plan duration)) num_stops ++ rest)).
Proof.
  split.
  - intros ->. unfold calculate_crawl_timing.
    destruct (crawl_plan duration) as [[start_time total_hours] activity].
    reflexivity.
  - intros Hn. destruct (Z.lt_trichotomy num_stops 0) as [Hneg|[Hz|Hpos]];
      [|contradiction|].
    + assert (HT : snd (fst (crawl_plan duration)) = 5 \/
                   snd (fst (crawl_plan duration)) = 10).
      { destruct (crawl_plan_cases duration) as [-> | ->]; auto. }
      unfold calculate_crawl_timing.
      destruct (crawl_plan duration) as [[start_time total_hours] activity].
      cbn [fst snd] in *.
      destruct (int_truediv_hours total_hours num_stops HT Hn) as [x Hx].
      rewrite Hx. cbn [bind]. unfold range.
      replace (Z.to_nat (num_stops + 1 - 1)) with 0%nat by lia.
      exists "". cbn. now rewrite append_empty_r.
    + destruct (crawl_schedule duration num_stops ltac:(lia)) as [_ Hrun].
      eexists. exact Hrun.
Qed.

Lemma calculate_crawl_timing_error_only_at_zero_witness :
  calculate_crawl_timing "full-day" 0
    = Ok "Error calculating timing: division by zero" /\
  exists rest : string,
    calculate_crawl_timing "full-day" (-2)
      = Ok (schedule_header (snd (crawl_plan "full-day")) (-2) ++ rest).
Proof.
  split.
  - apply (proj1 (calculate_crawl_timing_error_only_at_zero "full-day" 0)).
    reflexivity.
  - apply (proj2 (calculate_crawl_timing_error_only_at_zero "full-day" (-2))).
    lia.
Defined.

(** X2.  A negative number of stops is not refused: the answer is the
    header alone, which repeats the negative number, and no stop. *)
Theorem calculate_crawl_timing_negative_stops (duration : string)
    (num_stops : Z) :
  num_stops < 0 ->
  calculate_crawl_timing duration num_stops
    = Ok (snd (crawl_plan duration) ++ " Schedule (" ++ str num_stops
            ++ " stops):" ++ LF ++ LF).
Proof.
  intros Hneg.
  assert (HT : snd (fst (crawl_plan duration)) = 5 \/
               snd (fst (crawl_plan duration)) = 10).
  { destruct (crawl_plan_cases duration) as [-> | ->]; auto. }
  unfold calculate_crawl_timing.
  destruct (crawl_plan duration) as [[start_time total_hours] activity].
  cbn [fst snd] in *.
  destruct (int_truediv_hours total_hours num_stops HT ltac:(lia)) as [x Hx].
  rewrite Hx. cbn [bind]. unfold range.
  replace (Z.to_nat (num_stops + 1 - 1)) with 0%nat by lia.
  reflexivity.
Qed.

Lemma calculate_crawl_timing_negative_stops_witness :
  calculate_crawl_timing "half-day" (-3)
    = Ok (snd (crawl_plan "half-day") ++ " Schedule (" ++ str (-3)
            ++ " stops):" ++ LF ++ LF).
Proof. apply (calculate_crawl_timing_negative_stops "half-day" (-3)). lia. Defined.

(** X3.  The schedule of a crawl of at least one stop is the header and
    the lines "Stop i: H:MM AM (Duration: d mins)" of stops numbered from 1
    to [num_stops], where the clock shown for every stop after the first is
    the clock shown for the stop before it plus the duration shown for that
    stop, and where every stop ends within the hours of the crawl (5 for a
    duration with "half", 10 otherwise), counted from the initial hour (10
    for a duration with "full", 11 otherwise). *)
Theorem calculate_crawl_timing_within_budget (duration : string)
    (num_stops : Z) :
  1 <= num_stops ->
  exists stops : list stop,
    calculate_crawl_timing duration num_stops =
      Ok ((if contains "half" (lower duration)
             then "Half-Day Food Crawl" else "Full-Day Food Crawl")
            ++ " Schedule (" ++ str num_stops ++ " stops):" ++ LF ++ LF
            ++ String.concat ""
                 (map (fun s =>
                       "Stop " ++ str (stop_index s) ++ ": "
                         ++ str ((stop_hour s + 11) mod 12 + 1) ++ ":"
                         ++ str (stop_minute s / 10) ++ str (stop_minute s mod 10)
                         ++ " " ++ (if stop_hour s <? 12 then "AM" else "PM")
                         ++ " (Duration: " ++ str (stop_length s) ++ " mins)"
                         ++ LF)
                      stops)) /\
    map stop_index stops = range 1 (num_stops + 1) /\
    Forall (fun s => 0 <= stop_minute s <= 59 /\ 0 <= stop_hour s < 24) stops /\
    (forall s s', In s stops -> In s' stops ->
       stop_index s' = stop_index s + 1 ->
       60 * stop_hour s' + stop_minute s'
         = 60 * stop_hour s + stop_minute s + stop_length s) /\
    Forall (fun s =>
              60 * stop_hour s + stop_minute s + stop_length s
                <= 60 * ((if contains "full" (lower duration) then 10 else 11)
                         + (if contains "half" (lower duration) then 5 else 10)))
           stops.
Proof.
  intros Hn. destruct (crawl_schedule_text duration num_stops Hn) as [_ Hrun].
  set (total_hours := (if contains "half" (lower duration) then 5 else 10)) in *.
  set (hour0 := (if contains "full" (lower duration) then 10 else 11)) in *.
  set (d := total_hours * 60 / num_stops) in *.
  exists (stops_from 1 hour0 0 d (Z.to_nat num_stops)).
  assert (HT : 0 <= total_hours <= 10).
  { unfold total_hours. destruct (contains "half" (lower duration)); lia. }
  assert (H0 : 10 <= hour0 <= 11).
  { unfold hour0. destruct (contains "full" (lower duration)); lia. }
  assert (Hd : 0 <= d) by (unfold d; apply Z.div_pos; lia).
  assert (Hnd : num_stops * d <= total_hours * 60).
  { unfold d. apply Z.mul_div_le. lia. }
  pose proof (stops_from_clock d (Z.to_nat num_stops) 1 hour0 0
                Hd ltac:(lia)) as Hclock.
  rewrite Forall_forall in Hclock.
  split; [exact Hrun|]. split.
  { rewrite stops_from_index. unfold range. do 2 f_equal. lia. }
  split; [|split].
  - apply Forall_forall. intros s Hs.
    destruct (Hclock s Hs) as (Hm & Hl & Hi & Hc). split; [exact Hm | nia].
  - intros s s' Hs Hs' Hnext.
    destruct (Hclock s Hs) as (_ & Hl & _ & Hc).
    destruct (Hclock s' Hs') as (_ & _ & _ & Hc').
    rewrite Hc, Hc', Hl, Hnext. lia.
  - apply Forall_forall. intros s Hs.
    destruct (Hclock s Hs) as (_ & Hl & Hi & Hc). rewrite Hl. nia.
Qed.

Lemma calculate_crawl_timing_within_budget_witness :
  exists stops : list stop,
    calculate_crawl_timing "full-day" 7 =
      Ok ((if contains "half" (lower "full-day")
             then "Half-Day Food Crawl" else "Full-Day Food Crawl")
            ++ " Schedule (" ++ str 7 ++ " stops):" ++ LF ++ LF
            ++ String.concat ""
                 (map (fun s =>
                       "Stop " ++ str (stop_index s) ++ ": "
                         ++ str ((stop_hour s + 11) mod 12 + 1) ++ ":"
                         ++ str (stop_minute s / 10) ++ str (stop_minute s mod 10)
                         ++ " " ++ (if stop_hour s <? 12 then "AM" else "PM")
                         ++ " (Duration: " ++ str (stop_length s) ++ " mins)"
                         ++ LF)
                      stops)) /\
    map stop_index stops = range 1 (7 + 1) /\
    Forall (fun s => 0 <= stop_minute s <= 59 /\ 0 <= stop_hour s < 24) stops /\
    (forall s s', In s stops -> In s' stops ->
       stop_index s' = stop_index s + 1 ->
       60 * stop_hour s' + stop_minute s'
         = 60 * stop_hour s + stop_minute s + stop_length s) /\
    Forall (fun s =>
              60 * stop_hour s + stop_minute s + stop_length s
                <= 60 * ((if contains "full" (lower "full-day") then 10 else 11)
                         + (if contains "half" (lower "full-day") then 5 else 10)))
           stops.
Proof. apply (calculate_crawl_timing_within_budget "full-day" 7). lia. Defined.

(** X4.  With more stops than the crawl has minutes (300 for a duration
    with "half", 600 otherwise), [int(time_per_stop * 60)] is 0 and the
    schedule is the header and, for every [i] from 1 to [num_stops], the
    line "Stop i: 10:00 AM (Duration: 0 mins)" for a duration with "full"
    and "Stop i: 11:00 AM (Duration: 0 mins)" otherwise: every stop lasts 0
    minutes and all are shown at the initial hour. *)
Theorem calculate_crawl_timing_too_many_stops (duration : string)
    (num_stops : Z) :
  (if contains "half" (lower duration) then 5 else 10) * 60 < num_stops ->
  bind (int_truediv (if contains "half" (lower duration) then 5 else 10) num_stops)
       (fun time_per_stop =>
            bind (float_mul_int time_per_stop 60) int_of_float)
    = Ok 0 /\
  calculate_crawl_timing duration num_stops =
    Ok ((if contains "half" (lower duration)
             then "Half-Day Food Crawl" else "Full-Day Food Crawl")
            ++ " Schedule (" ++ str num_stops ++ " stops):" ++ LF ++ LF
          ++ String.concat ""
               (map (fun i =>
                       "Stop " ++ str i ++ ": "
                         ++ (if contains "full" (lower duration)
                             then "10" else "11")
                         ++ ":00 AM (Duration: 0 mins)" ++ LF)
                    (range 1 (num_stops + 1)))).
Proof.
  intros Hmany.
  assert (HT : 0 <= (if contains "half" (lower duration) then 5 else 10)).
  { destruct (contains "half" (lower duration)); lia. }
  destruct (crawl_schedule_text duration num_stops ltac:(lia)) as [Hdur Hrun].
  rewrite Z.div_small in Hdur, Hrun by lia.
  split; [exact Hdur|]. rewrite Hrun. unfold range.
  replace (Z.to_nat (num_stops + 1 - 1)) with (Z.to_nat num_stops) by lia.
  assert (Hlines : forall len i,
             map (fun s =>
                       "Stop " ++ str (stop_index s) ++ ": "
                         ++ str ((stop_hour s + 11) mod 12 + 1) ++ ":"
                         ++ str (stop_minute s / 10) ++ str (stop_minute s mod 10)
                         ++ " " ++ (if stop_hour s <? 12 then "AM" else "PM")
                         ++ " (Duration: " ++ str (stop_length s) ++ " mins)"
                         ++ LF)
                 (stops_from i (if contains "full" (lower duration) then 10 else 11) 0 0 len)
             = map (fun i =>
                      "Stop " ++ str i ++ ": "
                        ++ (if contains "full" (lower duration)
                            then "10" else "11")
                        ++ ":00 AM (Duration: 0 mins)" ++ LF)
                   (map (fun k => i + Z.of_nat k) (seq 0 len))).
  { induction len as [|len IH]; intros i; [reflexivity|].
    rewrite range_cons. cbn [stops_from map].
    change ((0 + 0) / 60) with 0. change ((0 + 0) mod 60) with 0.
    rewrite Z.add_0_r, IH. f_equal.
    cbn [stop_index stop_hour stop_minute stop_length].
    destruct (contains "full" (lower duration)); reflexivity. }
  rewrite Hlines. reflexivity.
Qed.

Lemma calculate_crawl_timing_too_many_stops_witness :
  bind (int_truediv (if contains "half" (lower "half-day") then 5 else 10) 301)
       (fun time_per_stop =>
            bind (float_mul_int time_per_stop 60) int_of_float)
    = Ok 0 /\
  calculate_crawl_timing "half-day" 301 =
    Ok ((if contains "half" (lower "half-day")
             then "Half-Day Food Crawl" else "Full-Day Food Crawl")
            ++ " Schedule (" ++ str 301 ++ " stops):" ++ LF ++ LF
          ++ String.concat ""
               (map (fun i =>
                       "Stop " ++ str i ++ ": "
                         ++ (if contains "full" (lower "half-day")
                             then "10" else "11")
                         ++ ":00 AM (Duration: 0 mins)" ++ LF)
                    (range 1 (301 + 1)))).
Proof.
  apply (calculate_crawl_timing_too_many_stops "half-day" 301). vm_compute.
  reflexivity.
Defined.

(** X5.  For a duration that names one kind of crawl and not the other,
    the first stop is shown at the [start_time] of its kind: a duration
    with "half" and without "full" gives a half day of 5 hours whose first
    stop is at 11:00 AM, and a duration with "full" and without "half" a
    full day of 10 hours whose first stop is at 10:00 AM. *)
Theorem calculate_crawl_timing_named_kind (duration : string) (num_stops : Z) :
  1 <= num_stops ->
  (contains "half" (lower duration) = true ->
   contains "full" (lower duration) = false ->
   fst (fst (crawl_plan duration)) = "11:00 AM" /\
   exists rest : string,
     calculate_crawl_timing duration num_stops =
       Ok ("Half-Day Food Crawl Schedule (" ++ str num_stops ++ " stops):"
             ++ LF ++ LF
             ++ "Stop 1: 11:00 AM (Duration: " ++ str (5 * 60 / num_stops)
             ++ " mins)" ++ LF ++ rest)) /\
  (contains "half" (lower duration) = false ->
   contains "full" (lower duration) = true ->
   fst (fst (crawl_plan duration)) = "10:00 AM" /\
   exists rest : string,
     calculate_crawl_timing duration num_stops =
       Ok ("Full-Day Food Crawl Schedule (" ++ str num_stops ++ " stops):"
             ++ LF ++ LF
             ++ "Stop 1: 10:00 AM (Duration: " ++ str (10 * 60 / num_stops)
             ++ " mins)" ++ LF ++ rest)).
Proof.
  intros Hn. destruct (crawl_schedule duration num_stops Hn) as [_ Hrun].
  destruct (Z.to_nat num_stops) as [|len] eqn:Elen; [lia|].
  cbn [stops_from map] in Hrun. rewrite concat_empty_cons in Hrun.
  split; intros Hhalf Hfull; unfold crawl_plan, initial_hour in *;
    rewrite Hhalf, Hfull in *; cbn [fst snd] in *;
    (split; [reflexivity|]); eexists; rewrite Hrun;
    unfold schedule_header, render_stop, stop_line;
    cbn [stop_index stop_hour stop_minute stop_length];
    rewrite !append_assoc; reflexivity.
Qed.

Lemma calculate_crawl_timing_named_kind_witness :
  fst (fst (crawl_plan "Half-Day")) = "11:00 AM" /\
  exists rest : string,
    calculate_crawl_timing "Half-Day" 4 =
      Ok ("Half-Day Food Crawl Schedule (" ++ str 4 ++ " stops):"
            ++ LF ++ LF
            ++ "Stop 1: 11:00 AM (Duration: " ++ str (5 * 60 / 4)
            ++ " mins)" ++ LF ++ rest).
Proof.
  apply (proj1 (calculate_crawl_timing_named_kind "Half-Day" 4 ltac:(lia)));
    reflexivity.
Defined.

End CalculateCrawlTimingEdges.

(** ** Further properties of chat *)

Module ChatFacts.
Import Py Agent.

Lemma fold_format_entry (h : list entry) (acc : list message) :
  fold_left format_entry h acc = (acc ++ flat_map (format_entry []) h)%list.
Proof.
  revert acc. induction h as [|[role content] h IH]; intros acc.
  - simpl. now rewrite app_nil_r.
  - cbn [fold_left flat_map]. rewrite IH, app_assoc. f_equal.
    unfold format_entry. destruct (String.eqb role "human"); [reflexivity|].
    destruct (String.eqb role "assistant" && truthy content);
      [|now rewrite app_nil_r].
    destruct (is_str content); [reflexivity | now rewrite app_nil_r].
Qed.

Lemma format_history_flat_map (h : list entry) :
  format_history h = flat_map (format_entry []) h.
Proof. unfold format_history. now rewrite fold_format_entry. Qed.

Lemma exchanges_length (xs : list (string * string)) :
  List.length (flat_map exchange_entries xs) = (2 * List.length xs)%nat.
Proof. induction xs as [|x xs IH]; simpl; lia. Qed.

Lemma exchanges_skipn (j : nat) (xs : list (string * string)) :
  skipn (2 * j) (flat_map exchange_entries xs)
  = flat_map exchange_entries (skipn j xs).
Proof.
  revert xs. induction j as [|j IH]; intros xs; [reflexivity|].
  destruct xs as [|x xs]; [reflexivity|].
  replace (2 * S j)%nat with (S (S (2 * j))) by lia. cbn [flat_map exchange_entries app skipn].
  apply IH.
Qed.

Lemma Forall_skipn {A : Type} (P : A -> Prop) (n : nat) (l : list A) :
  Forall P l -> Forall P (skipn n l).
Proof.
  intros H. rewrite <- (firstn_skipn n l) in H.
  apply Forall_app in H. tauto.
Qed.

(** A call of [chat] or a clearing keeps the history made of whole
    exchanges. *)
Lemma perform_whole_exchanges (h : option (list entry)) (a : action)
    (xs : list (string * string)) :
  whole_exchanges h xs -> exists xs', whole_exchanges (perform h a) xs'.
Proof.
  intros (-> & Hlen & Hall).
  destruct a as [create_agent user_input agent_executor|];
    [|exists []; repeat split; [simpl; lia | constructor]].
  unfold perform, chat. cbn [history_or_empty].
  destruct (executor_or_create create_agent agent_executor) as [exec|msg];
    cbn [snd]; [|exists xs; repeat split; auto].
  destruct (agent_output_nonempty
              (exec user_input (format_history (flat_map exchange_entries xs))))
    as (s & Hs & Hne).
  rewrite Hs. unfold update_history. cbn [truthy differs_from].
  destruct (String.eqb_spec s "") as [|_]; [contradiction|]. cbn [negb andb].
  destruct (String.eqb_spec s "No response generated") as [Heq|Hdiff]; cbn [negb].
  - exists xs. repeat split; auto. f_equal. unfold keep_last_20.
    rewrite exchanges_length.
    destruct (Nat.ltb_spec 20 (2 * List.length xs)); [lia | reflexivity].
  - assert (Happ : ((flat_map exchange_entries xs ++ [("human", VStr user_input)])
                      ++ [("assistant", VStr s)])%list
                   = flat_map exchange_entries (xs ++ [(user_input, s)])).
    { rewrite flat_map_app, <- app_assoc. reflexivity. }
    rewrite Happ.
    assert (Hall' : Forall (fun x => snd x <> "" /\ snd x <> "No response generated")
                           (xs ++ [(user_input, s)])).
    { apply Forall_app. split; [exact Hall|]. constructor; [|constructor].
      simpl. auto. }
    unfold keep_last_20, last_n. rewrite exchanges_length, length_app.
    cbn [List.length].
    destruct (Nat.ltb_spec 20 (2 * (List.length xs + 1))) as [Hlong|Hshort].
    + exists (skipn (List.length xs + 1 - 10) (xs ++ [(user_input, s)])).
      split; [|split].
      * f_equal. rewrite <- exchanges_skipn. f_equal. lia.
      * rewrite length_skipn, length_app. simpl. lia.
      * apply Forall_skipn, Hall'.
    + exists (xs ++ [(user_input, s)])%list. split; [reflexivity|]. split; [|exact Hall'].
      rewrite length_app. simpl. lia.
Qed.

Lemma history_after_whole_exchanges (actions : list action)
    (h : option (list entry)) (xs : list (string * string)) :
  whole_exchanges h xs ->
  exists xs', whole_exchanges (fold_left perform actions h) xs'.
Proof.
  revert h xs. induction actions as [|a actions IH]; intros h xs Hh.
  - exists xs. exact Hh.
  - cbn [fold_left]. destruct (perform_whole_exchanges h a xs Hh) as [xs' Hxs'].
    apply (IH _ xs' Hxs').
Qed.

Lemma format_history_exchanges (xs : list (string * string)) :
  Forall (fun x => snd x <> "" /\ snd x <> "No response generated") xs ->
  format_history (flat_map exchange_entries xs) = flat_map exchange_messages xs.
Proof.
  intros Hall. rewrite format_history_flat_map.
  induction Hall as [|[u s] xs [Hne _] _ IH]; [reflexivity|].
  cbn [flat_map exchange_entries exchange_messages app fst snd]. rewrite IH.
  cbn [format_entry String.eqb Ascii.eqb Bool.eqb andb truthy is_str app].
  simpl in Hne. destruct (String.eqb_spec s ""); [contradiction|]. reflexivity.
Qed.

End ChatFacts.

Section ChatMemory.
Import Py Agent ChatFacts.

(** X6.  Whatever calls of [chat] and clearings came before, the global
    [chat_history] is made of whole exchanges, at most ten: a human entry
    with the input of the user, then an assistant entry with the text
    answered, which is neither empty nor "No response generated".  The cut
    to 20 entries never separates the two entries of an exchange. *)
Theorem chat_history_whole_exchanges (actions : list action) :
  exists xs : list (string * string),
    history_after actions = Some (flat_map exchange_entries xs) /\
    (List.length xs <= 10)%nat /\
    Forall (fun x => snd x <> "" /\ snd x <> "No response generated") xs.
Proof.
  apply (history_after_whole_exchanges actions (Some []) []).
  repeat split; [simpl; lia | constructor].
Qed.

(** X7.  Of the history the program has built, [chat] hands every entry to
    the executor: a human message and an AI message for each exchange, in
    order; the tests of the formatting loop drop none of them. *)
Theorem chat_forwards_whole_history (actions : list action) :
  exists xs : list (string * string),
    history_after actions = Some (flat_map exchange_entries xs) /\
    format_history (history_or_empty (history_after actions))
      = flat_map exchange_messages xs /\
    List.length (format_history (history_or_empty (history_after actions)))
      = history_length (history_after actions).
Proof.
  destruct (history_after_whole_exchanges actions (Some []) [])
    as (xs & Hh & Hlen & Hall);
    [repeat split; [simpl; lia | constructor]|].
  exists xs. fold (history_after actions) in Hh. rewrite Hh.
  cbn [history_or_empty history_length].
  rewrite (format_history_exchanges xs Hall). split; [reflexivity|].
  split; [reflexivity|].
  rewrite exchanges_length. clear. induction xs; simpl; lia.
Qed.

(** X8.  On a history whose human entries hold texts (for any other
    content the formatting raises and [chat] ends in its outer [except]),
    when [chat] has an executor, it returns the text of the block around
    [invoke] as it is (the last fallback sentence of [chat] is never used),
    and unless that text is "No response generated" the history it leaves
    ends with the exchange: the input, then the text returned.  The entries
    kept before them are the end of the history before the call, and at the
    next call the executor is handed the exchange as a human message
    followed by an AI message. *)
Theorem chat_records_exchange (create_agent : result executor)
    (user_input : string) (agent_executor : option executor)
    (exec : executor) (h : list entry) :
  Forall (fun e => fst e = "human" -> is_str (snd e) = true) h ->
  executor_or_create create_agent agent_executor = Ok exec ->
  let returned := fst (chat create_agent user_input agent_executor (Some h)) in
  let after := snd (chat create_agent user_input agent_executor (Some h)) in
  returned = agent_output (exec user_input (format_history h)) /\
  (returned = VStr "No response generated" -> after = Some (keep_last_20 h)) /\
  (returned <> VStr "No response generated" ->
   exists dropped older : list entry,
     h = (dropped ++ older)%list /\
     after = Some (older ++ [("human", VStr user_input); ("assistant", returned)])%list /\
     format_history
       (older ++ [("human", VStr user_input); ("assistant", returned)])
     = (format_history older
          ++ [HumanMessage (VStr user_input); AIMessage returned])%list).
Proof.
  intros _ Hexec returned after. unfold returned, after, chat.
  rewrite Hexec. cbn [fst snd history_or_empty].
  destruct (agent_output_nonempty (exec user_input (format_history h)))
    as (s & Hs & Hne).
  rewrite Hs. unfold update_history. cbn [truthy differs_from].
  destruct (String.eqb_spec s "") as [|_]; [contradiction|]. cbn [negb andb].
  split; [reflexivity|]. split.
  - intros [= ->]. reflexivity.
  - intros Hdiff.
    destruct (String.eqb_spec s "No response generated") as [->|_];
      [contradiction|]. cbn [negb].
    rewrite <- app_assoc. cbn [app].
    set (pair := [("human", VStr user_input); ("assistant", VStr s)]).
    assert (Hfmt : forall older,
               format_history (older ++ pair)
               = (format_history older
                    ++ [HumanMessage (VStr user_input); AIMessage (VStr s)])%list).
    { intros older. rewrite !format_history_flat_map, flat_map_app. f_equal.
      unfold pair. cbn [flat_map format_entry String.eqb Ascii.eqb Bool.eqb andb
                          truthy is_str app].
      destruct (String.eqb_spec s ""); [contradiction | reflexivity]. }
    unfold keep_last_20, last_n. rewrite length_app. cbn [List.length].
    destruct (Nat.ltb_spec 20 (List.length h + 2)) as [Hlong|Hshort].
    + exists (firstn (List.length h + 2 - 20) h), (skipn (List.length h + 2 - 20) h).
      split; [symmetry; apply firstn_skipn|]. split; [|apply Hfmt].
      f_equal. rewrite skipn_app.
      replace (List.length h + 2 - 20 - List.length h)%nat with 0%nat by lia.
      reflexivity.
    + exists [], h. split; [reflexivity|]. split; [reflexivity | apply Hfmt].
Qed.

Lemma chat_records_exchange_witness :
  let exec := fun (_ : string) (_ : list message) => Ok (RObject None "Try the thali.") in
  exists dropped older : list entry,
    [("human", VStr "hi"); ("assistant", VStr "hello")] = (dropped ++ older)%list /\
    snd (chat (Raise "") "lunch?" (Some exec)
           (Some [("human", VStr "hi"); ("assistant", VStr "hello")]))
      = Some (older ++ [("human", VStr "lunch?");
                        ("assistant", VStr "Try the thali.")])%list /\
    format_history
      (older ++ [("human", VStr "lunch?"); ("assistant", VStr "Try the thali.")])
    = (format_history older
         ++ [HumanMessage (VStr "lunch?"); AIMessage (VStr "Try the thali.")])%list.
Proof.
  intros exec.
  apply (proj2 (proj2 (chat_records_exchange (Raise "") "lunch?" (Some exec) exec
                         [("human", VStr "hi"); ("assistant", VStr "hello")]
                         ltac:(repeat constructor) eq_refl))).
  discriminate.
Defined.

(** X9.  On a history whose human entries hold texts (for any other
    content the formatting raises), the formatting keeps the order of the
    entries and works entry by entry: every human entry becomes a human
    message with its text; an assistant entry becomes an AI message exactly
    when its content is a text that is not empty; an entry of another role
    gives no message. *)
Theorem format_history_filter (h1 h2 : list entry) (c : pyval) :
  Forall (fun e => fst e = "human" -> is_str (snd e) = true) (h1 ++ h2) ->
  format_history (h1 ++ h2) = (format_history h1 ++ format_history h2)%list /\
  (In (HumanMessage c) (format_history h1) <-> In ("human", c) h1) /\
  (In (AIMessage c) (format_history h1) <->
   In ("assistant", c) h1 /\ truthy c = true /\ is_str c = true) /\
  List.length (format_history h1) =
    List.length
      (filter (fun e => String.eqb (fst e) "human"
                        || (String.eqb (fst e) "assistant" && truthy (snd e)
                              && is_str (snd e))) h1).
Proof.
  intros _. rewrite !format_history_flat_map. split; [apply flat_map_app|].
  assert (Hentry : forall role content,
            format_entry [] (role, content) =
              if String.eqb role "human" then [HumanMessage content]
              else if String.eqb role "assistant" && truthy content && is_str content
                   then [AIMessage content] else []).
  { intros role content. unfold format_entry.
    destruct (String.eqb role "human"); [reflexivity|].
    destruct (String.eqb role "assistant" && truthy content); [|reflexivity].
    destruct (is_str content); reflexivity. }
  split; [|split].
  - rewrite in_flat_map. split.
    + intros ([role content] & Hin & Hmsg). rewrite Hentry in Hmsg.
      destruct (String.eqb_spec role "human") as [->|_].
      * destruct Hmsg as [[= ->]|[]]. exact Hin.
      * destruct (String.eqb role "assistant" && truthy content && is_str content);
          [destruct Hmsg as [[=]|[]] | destruct Hmsg].
    + intros Hin. exists ("human", c). split; [exact Hin|]. left. reflexivity.
  - rewrite in_flat_map. split.
    + intros ([role content] & Hin & Hmsg). rewrite Hentry in Hmsg.
      destruct (String.eqb_spec role "human") as [->|_];
        [destruct Hmsg as [[=]|[]]|].
      destruct (String.eqb_spec role "assistant") as [->|_]; [|destruct Hmsg].
      destruct (truthy content) eqn:Et; [|destruct Hmsg].
      destruct (is_str content) eqn:Es; [|destruct Hmsg].
      destruct Hmsg as [[= ->]|[]]. auto.
    + intros (Hin & Ht & Hs). exists ("assistant", c). split; [exact Hin|].
      rewrite Hentry, Ht, Hs. left. reflexivity.
  - induction h1 as [|[role content] h1 IH]; [reflexivity|].
    cbn [flat_map filter fst snd]. rewrite length_app, Hentry, IH.
    destruct (String.eqb role "human"); [reflexivity|]. cbn [orb].
    destruct (String.eqb role "assistant" && truthy content && is_str content);
      reflexivity.
Qed.

Lemma format_history_filter_witness :
  let h1 := [("human", VStr "hi"); ("assistant", VStr "");
             ("system", VStr "note"); ("assistant", VOther true "42");
             ("assistant", VStr "hello")] in
  let h2 := [("human", VStr "more")] in
  format_history (h1 ++ h2) = (format_history h1 ++ format_history h2)%list /\
  (In (HumanMessage (VStr "hi")) (format_history h1)
   <-> In ("human", VStr "hi") h1) /\
  (In (AIMessage (VStr "hi")) (format_history h1) <->
   In ("assistant", VStr "hi") h1 /\ truthy (VStr "hi") = true
   /\ is_str (VStr "hi") = true) /\
  List.length (format_history h1) =
    List.length
      (filter (fun e => String.eqb (fst e) "human"
                        || (String.eqb (fst e) "assistant" && truthy (snd e)
                              && is_str (snd e))) h1).
Proof.
  intros h1 h2. apply (format_history_filter h1 h2 (VStr "hi")).
  repeat constructor; cbn; intros; try reflexivity; discriminate.
Defined.

End ChatMemory.

(** ** Properties of the session and of the submit handler *)

Module AppFacts.
Import Py Agent App AppSession.

Lemma list_set_middle {A : Type} (before after : list A) (m x : A) :
  list_set (before ++ m :: after) (List.length before) x
  = (before ++ x :: after)%list.
Proof. induction before as [|y before IH]; simpl; [|rewrite IH]; reflexivity. Qed.

(** The loop skips the messages of other roles that follow the last
    assistant message. *)
Lemma update_last_assistant_from_skip (before after : list msg) (m : msg)
    (response : string) (now : Z) (j : nat) :
  role m = Some "assistant" ->
  Forall (fun x => exists r, role x = Some r /\ r <> "assistant") after ->
  (j <= List.length after)%nat ->
  update_last_assistant_from (List.length before + 1 + j)
    (before ++ m :: after) response now
  = Ok (before ++ {| role := Some "assistant"; content := Some response;
                     ts := Some now |} :: after)%list.
Proof.
  intros Hm Hafter. induction j as [|j IH]; intros Hj.
  - replace (List.length before + 1 + 0)%nat with (S (List.length before)) by lia.
    cbn [update_last_assistant_from].
    rewrite nth_error_app2, Nat.sub_diag by lia. cbn [nth_error].
    unfold role_of. rewrite Hm. cbn [bind String.eqb Ascii.eqb Bool.eqb andb].
    now rewrite list_set_middle.
  - replace (List.length before + 1 + S j)%nat
      with (S (List.length before + 1 + j)) by lia.
    cbn [update_last_assistant_from].
    rewrite nth_error_app2 by lia.
    replace (List.length before + 1 + j - List.length before)%nat with (S j) by lia.
    cbn [nth_error].
    destruct (nth_error after j) as [x|] eqn:Ex;
      [|apply nth_error_None in Ex; lia].
    rewrite Forall_forall in Hafter.
    destruct (Hafter x (nth_error_In _ _ Ex)) as (r & Hr & Hne).
    unfold role_of. rewrite Hr. cbn [bind].
    destruct (String.eqb_spec r "assistant"); [contradiction|].
    apply IH. lia.
Qed.

Lemma update_last_assistant_from_none (ms : list msg) (response : string)
    (now : Z) (k : nat) :
  Forall (fun x => exists r, role x = Some r /\ r <> "assistant") ms ->
  (k <= List.length ms)%nat ->
  update_last_assistant_from k ms response now = Ok ms.
Proof.
  intros Hall. induction k as [|k IH]; intros Hk; [reflexivity|].
  cbn [update_last_assistant_from].
  destruct (nth_error ms k) as [x|] eqn:Ex; [|apply nth_error_None in Ex; lia].
  rewrite Forall_forall in Hall.
  destruct (Hall x (nth_error_In _ _ Ex)) as (r & Hr & Hne).
  unfold role_of. rewrite Hr. cbn [bind].
  destruct (String.eqb_spec r "assistant"); [contradiction|].
  apply IH. lia.
Qed.

(** A last message of role "assistant" is the one the loop rewrites. *)
Lemma update_last_assistant_at_end (before : list msg) (m : msg)
    (response : string) (now : Z) :
  role m = Some "assistant" ->
  update_last_assistant (before ++ [m]) response now
  = Ok (before ++ [ {| role := Some "assistant"; content := Some response;
                       ts := Some now |} ])%list.
Proof.
  intros Hm. unfold update_last_assistant. rewrite length_app. cbn [List.length].
  replace (List.length before + 1)%nat with (List.length before + 1 + 0)%nat by lia.
  apply update_last_assistant_from_skip; [exact Hm | constructor | simpl; lia].
Qed.

End AppFacts.

Section SubmitHandler.
Import Py Agent App AppSession AppFacts.

(** X10.  The loop that writes the reply changes one message only, the
    last one whose role is "assistant": it gets the reply and the time,
    the messages before and after it stay as they are; with no assistant
    message, nothing changes. *)
Theorem update_last_assistant_last_only (before after : list msg) (m : msg)
    (response : string) (now : Z) :
  Forall (fun x => exists r, role x = Some r /\ r <> "assistant") after ->
  (role m = Some "assistant" ->
   update_last_assistant (before ++ m :: after) response now
     = Ok (before ++ {| role := Some "assistant"; content := Some response;
                        ts := Some now |} :: after)%list) /\
  update_last_assistant after response now = Ok after.
Proof.
  intros Hafter. split.
  - intros Hm. unfold update_last_assistant.
    rewrite length_app. cbn [List.length].
    replace (List.length before + S (List.length after))%nat
      with (List.length before + 1 + List.length after)%nat by lia.
    apply update_last_assistant_from_skip; auto.
  - apply update_last_assistant_from_none; auto.
Qed.

Lemma update_last_assistant_last_only_witness :
  let user t := {| role := Some "user"; content := Some t; ts := Some 0 |} in
  let old := {| role := Some "assistant"; content := Some "old"; ts := Some 1 |} in
  update_last_assistant ([user "a"; old; user "b"] ++ old :: [user "c"]) "new" 9
    = Ok ([user "a"; old; user "b"]
            ++ {| role := Some "assistant"; content := Some "new"; ts := Some 9 |}
            :: [user "c"])%list.
Proof.
  intros user old.
  apply (proj1 (update_last_assistant_last_only [user "a"; old; user "b"]
                  [user "c"] old "new" 9
                  ltac:(repeat constructor; exists "user"; split;
                        [reflexivity | discriminate]))).
  reflexivity.
Defined.

(** X11.  A submit never fails and always leaves two more messages: the
    text of the user, then one assistant message in the place of the
    "Planning" placeholder.  That message holds the text shown for the
    answer of the chat function when the session has an executor or one
    can be made (it is then kept in the session), and the fixed error
    sentence when none can be made. *)
Theorem handle_submit_appends_exchange (cached : result executor)
    (agent_chat : string -> executor -> result pyval)
    (text : string) (t_user t_thinking t_reply : Z) (s : session) :
  exists (s' : session) (reply : string),
    handle_submit cached agent_chat text t_user t_thinking t_reply s = Ok s' /\
    messages s' =
      (messages s
         ++ [ {| role := Some "user"; content := Some text; ts := Some t_user |};
              {| role := Some "assistant"; content := Some reply;
                 ts := Some t_reply |} ])%list /\
    match agent_executor s, cached with
    | Some e, _ =>
        reply = shown_response (agent_chat text e) /\
        agent_executor s' = Some e /\ agent_ready s' = agent_ready s
    | None, Ok e =>
        reply = shown_response (agent_chat text e) /\
        agent_executor s' = Some e /\ agent_ready s' = true
    | None, Raise _ =>
        reply = "⚠️ I encountered an error. Please check your API keys and try again." /\
        agent_executor s' = None /\ agent_ready s' = agent_ready s
    end.
Proof.
  destruct s as [ms ready exec].
  assert (U : forall response,
             update_last_assistant
               ((ms ++ [ {| role := Some "user"; content := Some text;
                            ts := Some t_user |} ])
                  ++ [ {| role := Some "assistant";
                          content := Some "🤔 Planning your perfect food crawl...";
                          ts := Some t_thinking |} ])
               response t_reply
             = Ok ((ms ++ [ {| role := Some "user"; content := Some text;
                               ts := Some t_user |} ])
                     ++ [ {| role := Some "assistant"; content := Some response;
                             ts := Some t_reply |} ])%list).
  { intros response. apply update_last_assistant_at_end. reflexivity. }
  unfold handle_submit, ensure_agent_ready, with_messages.
  cbn [messages agent_ready agent_executor].
  destruct exec as [e|]; [|destruct ready; destruct cached as [e|msg]];
    cbn [bind messages agent_ready agent_executor]; rewrite U;
    cbn [bind messages agent_ready agent_executor];
    eexists _, _; (split; [reflexivity|]);
    cbn [messages agent_ready agent_executor];
    rewrite <- app_assoc; repeat split; reflexivity.
Qed.

(** X12.  [ensure_agent_ready] makes the executor once: when it has
    returned an executor, the session is ready and holds it, and every
    later call returns this executor and leaves the session as it is,
    whatever making an executor anew would give; when it raises, the
    session is as before. *)
Theorem ensure_agent_ready_once (cached : result executor) (s : session) :
  (forall e, fst (ensure_agent_ready cached s) = Ok e ->
     let s' := snd (ensure_agent_ready cached s) in
     agent_ready s' = true /\ agent_executor s' = Some e /\
     messages s' = messages s /\
     forall cached', ensure_agent_ready cached' s' = (Ok e, s')) /\
  (forall msg, fst (ensure_agent_ready cached s) = Raise msg ->
     snd (ensure_agent_ready cached s) = s).
Proof.
  unfold ensure_agent_ready.
  destruct (agent_ready s) eqn:Er; destruct (agent_executor s) as [e0|] eqn:Ee;
    try destruct cached as [e1|msg1]; cbn [fst snd];
    (split; [intros e [= <-] | intros msg; try discriminate; intros _; reflexivity]);
    cbn [agent_ready agent_executor messages];
    try rewrite Er; try rewrite Ee; repeat split; auto.
Qed.

Lemma ensure_agent_ready_once_witness :
  let exec := fun (_ : string) (_ : list message) => Ok RNone in
  let s := {| messages := []; agent_ready := false; agent_executor := None |} in
  let s' := snd (ensure_agent_ready (Ok exec) s) in
  agent_ready s' = true /\ agent_executor s' = Some exec /\
  messages s' = messages s /\
  forall cached', ensure_agent_ready cached' s' = (Ok exec, s').
Proof.
  intros exec s.
  apply (proj1 (ensure_agent_ready_once (Ok exec) s) exec). reflexivity.
Defined.

End SubmitHandler.

(** ** Further properties of render_chat_html and of the cuisine table *)

Module ReplaceFacts.
Import Py StringFacts.

Lemma contains_char_cons (c b : ascii) (s : string) :
  contains (String c "") (String b s)
  = Ascii.eqb c b || contains (String c "") s.
Proof.
  cbn [contains String.prefix].
  destruct (ascii_dec c b) as [->|Hne].
  - rewrite Ascii.eqb_refl. destruct s; reflexivity.
  - apply Ascii.eqb_neq in Hne. rewrite Hne. reflexivity.
Qed.

Lemma contains_char_empty (c : ascii) : contains (String c "") "" = false.
Proof. reflexivity. Qed.

Lemma contains_char_app (c : ascii) (a b : string) :
  contains (String c "") (a ++ b)
  = contains (String c "") a || contains (String c "") b.
Proof.
  induction a as [|x a IH]; [reflexivity|].
  change (String x a ++ b) with (String x (a ++ b)).
  rewrite !contains_char_cons, IH. now rewrite orb_assoc.
Qed.

(** Replacing a character by a text without it leaves none of it. *)
Lemma replace_char_removes (c : ascii) (new s : string) :
  contains (String c "") new = false ->
  contains (String c "") (replace (String c "") new s) = false.
Proof.
  intros Hnew. rewrite replace_char.
  induction (list_ascii_of_string s) as [|ch l IH]; [reflexivity|].
  cbn [map]. rewrite concat_empty_cons, contains_char_app, IH, orb_false_r.
  destruct (Ascii.eqb c ch) eqn:E; [exact Hnew|].
  rewrite contains_char_cons, E. reflexivity.
Qed.

(** Replacing a character that does not occur changes nothing. *)
Lemma replace_char_absent (c : ascii) (new s : string) :
  contains (String c "") s = false -> replace (String c "") new s = s.
Proof.
  rewrite replace_char. induction s as [|ch s IH]; intros H; [reflexivity|].
  rewrite contains_char_cons in H. apply orb_false_iff in H. destruct H as [E H].
  cbn [list_ascii_of_string map]. rewrite concat_empty_cons, E, IH by exact H.
  reflexivity.
Qed.

End ReplaceFacts.

Section RenderChatHtmlLines.
Import Py App StringFacts ReplaceFacts.

(** X13.  When the clock text has no line feed, no bubble has one,
    whatever the content of its message: the page of a chat of [n]
    messages, [n] not zero, is the opening line, [n] bubbles of one line
    each, and the closing line. *)
Theorem render_chat_html_one_line_per_message (time_time : Z)
    (strftime_HM : Z -> string) (messages : list msg) :
  (forall t, contains LF (strftime_HM t) = false) ->
  messages <> [] ->
  exists bubbles : list string,
    render_chat_html time_time strftime_HM messages =
      join LF (["<div id='chatbox'>"] ++ bubbles ++ ["</div>"]) /\
    List.length bubbles = List.length messages /\
    Forall (fun bubble => contains LF bubble = false) bubbles.
Proof.
  intros Hclock Hne.
  exists (flat_map (render_msg time_time strftime_HM []) messages).
  split; [|split].
  - destruct messages as [|m messages]; [contradiction|].
    unfold render_chat_html. rewrite fold_render_msg, <- app_assoc. reflexivity.
  - clear. induction messages as [|m messages IH]; [reflexivity|].
    cbn [flat_map]. rewrite length_app, IH. unfold render_msg.
    destruct (String.eqb (get (role m) "user") "user"); reflexivity.
  - clear Hne. apply Forall_forall. intros bubble Hin.
    apply in_flat_map in Hin. destruct Hin as (m & _ & Hin).
    pose proof (replace_char_removes "010" "<br>" (get (content m) "") eq_refl)
      as Hsafe.
    unfold render_msg in Hin. fold LF in Hsafe.
    destruct (String.eqb (get (role m) "user") "user");
      destruct Hin as [<-|[]]; unfold LF in *;
      rewrite !contains_char_app, Hsafe, Hclock; reflexivity.
Qed.

Lemma render_chat_html_one_line_per_message_witness :
  let messages :=
    [ {| role := Some "user"; content := Some ("two" ++ LF ++ "lines");
         ts := Some 0 |} ] in
  exists bubbles : list string,
    render_chat_html 60 (fun _ => "12:00") messages =
      join LF (["<div id='chatbox'>"] ++ bubbles ++ ["</div>"]) /\
    List.length bubbles = List.length messages /\
    Forall (fun bubble => contains LF bubble = false) bubbles.
Proof.
  intros messages.
  apply (render_chat_html_one_line_per_message 60 (fun _ => "12:00") messages).
  - intros t. reflexivity.
  - discriminate.
Defined.

(** X14.  A content is put in its bubble without any escaping: when it has
    no line feed, the bubble holds it as it is, markup included. *)
Theorem render_msg_no_escaping (time_time : Z) (strftime_HM : Z -> string)
    (html_parts : list string) (m : msg) :
  contains LF (get (content m) "") = false ->
  render_msg time_time strftime_HM html_parts m =
    (html_parts ++
       [ (if String.eqb (get (role m) "user") "user"
         then "<div style='display:flex; justify-content:flex-end;'>"
                ++ "<div class='msg-user'>" ++ get (content m) ""
                ++ "<div class='meta'>You • "
                ++ strftime_HM (get (ts m) time_time) ++ "</div></div></div>"
         else "<div style='display:flex; justify-content:flex-start;'>"
                ++ "<div class='msg-assistant'>" ++ get (content m) ""
                ++ "<div class='meta-assistant'>AI Chef • "
                ++ strftime_HM (get (ts m) time_time) ++ "</div></div></div>")%string ])%list.
Proof.
  intros Hno. unfold render_msg. unfold LF in *.
  rewrite (replace_char_absent "010" "<br>" _ Hno).
  destruct (String.eqb (get (role m) "user") "user"); reflexivity.
Qed.

Lemma render_msg_no_escaping_witness :
  render_msg 0 (fun _ => "12:00") []
    {| role := Some "assistant"; content := Some "<script>alert(1)</script>";
       ts := Some 5 |}
  = [ "<div style='display:flex; justify-content:flex-start;'><div class='msg-assistant'><script>alert(1)</script><div class='meta-assistant'>AI Chef • 12:00</div></div></div>" ].
Proof.
  apply (render_msg_no_escaping 0 (fun _ => "12:00") []
           {| role := Some "assistant";
              content := Some "<script>alert(1)</script>"; ts := Some 5 |}).
  reflexivity.
Defined.

End RenderChatHtmlLines.

Section CuisineTable.
Import Py Agent.

(** X15.  Every key of [cuisine_data] leads to its own description: a
    cuisine that, letter case apart, is a key of the table gets the
    description declared for this key; no key is hidden by a key declared
    before it. *)
Theorem get_cuisine_recommendations_own_key (key description s : string) :
  In (key, description) cuisine_data ->
  lower s = key ->
  get_cuisine_recommendations s
    = "Recommendations for " ++ s ++ ":" ++ LF ++ description.
Proof.
  intros Hin Hlower. unfold get_cuisine_recommendations. rewrite Hlower.
  unfold cuisine_data in Hin. cbn [In] in Hin.
  repeat (destruct Hin as [[= <- <-]|Hin]; [reflexivity|]).
  destruct Hin.
Qed.

Lemma get_cuisine_recommendations_own_key_witness :
  get_cuisine_recommendations "THAI"
    = "Recommendations for " ++ "THAI" ++ ":" ++ LF
        ++ "Popular dishes: Pad Thai, Tom Yum Soup, Green Curry, Som Tam, Spring Rolls. Best time: Lunch or Dinner. Budget: ‚Çπ400-1200 per person.".
Proof.
  apply (get_cuisine_recommendations_own_key "thai" _ "THAI").
  - do 7 right. left. reflexivity.
  - reflexivity.
Defined.

End CuisineTable.

Section SubmitAndChat.
Import Py Agent App AppSession AppFacts.

(** X16.  When the session has an executor and the chat function of the
    agent is the one called, a submit shows in the assistant message the
    very text [chat] has returned, and this text is not empty. *)
Theorem handle_submit_shows_chat_text (cached create_agent : result executor)
    (chat_history : option (list entry)) (e : executor)
    (text : string) (t_user t_thinking t_reply : Z) (s : session) :
  agent_executor s = Some e ->
  exists (s' : session) (reply : string),
    handle_submit cached
      (fun text agent_exec =>
         Ok (fst (chat create_agent text (Some agent_exec) chat_history)))
      text t_user t_thinking t_reply s = Ok s' /\
    fst (chat create_agent text (Some e) chat_history) = VStr reply /\
    reply <> "" /\
    messages s' =
      (messages s
         ++ [ {| role := Some "user"; content := Some text; ts := Some t_user |};
              {| role := Some "assistant"; content := Some reply;
                 ts := Some t_reply |} ])%list.
Proof.
  intros He.
  assert (Hchat : exists reply,
             fst (chat create_agent text (Some e) chat_history) = VStr reply /\
             reply <> "").
  { unfold chat. cbn [executor_or_create fst].
    destruct (agent_output_nonempty
                (e text (format_history (history_or_empty chat_history))))
      as (reply & Hr & Hne).
    rewrite Hr. exists reply. split; [|exact Hne].
    cbn [truthy]. destruct (String.eqb_spec reply ""); [contradiction | reflexivity]. }
  destruct Hchat as (reply & Hreply & Hne).
  destruct s as [ms ready exec]. cbn [agent_executor] in He. subst exec.
  unfold handle_submit, with_messages. cbn [messages agent_ready agent_executor bind].
  rewrite Hreply. cbn [shown_response str_of].
  rewrite update_last_assistant_at_end by reflexivity. cbn [bind].
  exists {| messages :=
              (ms ++ [ {| role := Some "user"; content := Some text;
                          ts := Some t_user |} ])
                ++ [ {| role := Some "assistant"; content := Some reply;
                        ts := Some t_reply |} ];
            agent_ready := ready; agent_executor := Some e |}, reply.
  split; [reflexivity|]. split; [reflexivity|]. split; [exact Hne|].
  cbn [messages]. now rewrite <- app_assoc.
Qed.

Lemma handle_submit_shows_chat_text_witness :
  let e := fun (_ : string) (_ : list message) =>
             Ok (RDict [("output", VStr "Start at the chaat stall.")]) in
  let s := {| messages := []; agent_ready := true; agent_executor := Some e |} in
  exists (s' : session) (reply : string),
    handle_submit (Raise "")
      (fun text agent_exec =>
         Ok (fst (chat (Raise "") text (Some agent_exec) (Some []))))
      "Plan a crawl" 1 2 3 s = Ok s' /\
    fst (chat (Raise "") "Plan a crawl" (Some e) (Some [])) = VStr reply /\
    reply <> "" /\
    messages s' =
      (messages s
         ++ [ {| role := Some "user"; content := Some "Plan a crawl"; ts := Some 1 |};
              {| role := Some "assistant"; content := Some reply;
                 ts := Some 3 |} ])%list.
Proof.
  intros e s.
  apply (handle_submit_shows_chat_text (Raise "") (Raise "") (Some []) e
           "Plan a crawl" 1 2 3 s).
  reflexivity.
Defined.

End SubmitAndChat.
